(** * Order-status reconciliation engine of [order_status_handler.py]

    A shallow embedding of [OrderStatusHandler] (src/order_status_handler.py):
    the status table and its validator, the status-update procedure with its
    retry loops against the persistence gateway, the chat/order mapping cache,
    the order-id extraction from loosely typed payloads, the notification
    classifier, the system-message entry point and the deferred-resolution
    hook.

    Modelling conventions.
    - Python [str] values are [String.string] holding their UTF-8 bytes;
      substring tests and equality on UTF-8 bytes coincide with the ones on
      code points.  Where Python looks at characters ([\d] and [\s] of the
      regular expressions, [str.strip()]), the bytes are decoded into code
      points; [\d] is the Unicode decimal digits (category Nd) and [\s] and
      [str.strip()] the Unicode whitespace of CPython's [str.isspace()],
      both as in CPython 3.11 (Unicode 14.0.0).
    - Timestamps ([time.time()]) are integers in milliseconds.
    - A Python dict whose iteration order matters is an association list
      with Python's update-in-place / append-at-end semantics; the other
      dicts of the engine are stdpp [gmap]s.
    - Python exceptions are the [Raise] case of [PyResult]. *)

From Stdlib Require Import String Ascii ZArith List Lia.
From stdpp Require Import base gmap strings list.

Set Warnings "-register-all".

Local Open Scope string_scope.
Local Open Scope Z_scope.

(** ** Python-level helpers *)

Definition str_in (l : list string) (s : string) : bool :=
  existsb (String.eqb s) l.

(** [needle in hay] for Python strings. *)
Definition substr (needle hay : string) : bool :=
  match String.index 0 needle hay with Some _ => true | None => false end.

(** [any(k in hay for k in ks)] *)
Definition any_in (ks : list string) (hay : string) : bool :=
  existsb (fun k => substr k hay) ks.

(** Python dict [get] on an association list (first binding wins). *)
Fixpoint assoc {A} (k : string) (l : list (string * A)) : option A :=
  match l with
  | [] => None
  | (k', v) :: l' => if String.eqb k k' then Some v else assoc k l'
  end.

(** ** Status model *)

(** The keys of [self.status_mapping]. *)
Definition status_mapping : list string :=
  ["processing"; "pending_ship"; "shipped"; "completed"; "refunding";
   "refund_cancelled"; "cancelled"].

(** [OrderStatusHandler.VALID_TRANSITIONS]. *)
Definition VALID_TRANSITIONS : list (string * list string) :=
  [("processing", ["pending_ship"; "shipped"; "completed"; "cancelled"]);
   ("pending_ship", ["shipped"; "completed"; "cancelled"; "refunding"]);
   ("shipped", ["completed"; "cancelled"; "refunding"]);
   ("completed", ["cancelled"; "refunding"]);
   ("refunding", ["completed"; "cancelled"; "refund_cancelled"]);
   ("refund_cancelled", []);
   ("cancelled", [])].

(** The statuses of the rollback-prevention rule. *)
Definition no_rollback_statuses : list string :=
  ["pending_ship"; "shipped"; "completed"; "refunding"; "refund_cancelled"].

(** [_is_valid_status_transition(current_status, new_status)]. *)
Definition _is_valid_status_transition (current_status new_status : string) : bool :=
  match assoc current_status VALID_TRANSITIONS with
  | None => true
  | Some _ =>
      if String.eqb new_status "processing" && str_in no_rollback_statuses current_status
      then false
      else
        let allowed_statuses :=
          match assoc current_status VALID_TRANSITIONS with
          | Some l => l | None => [] end in
        str_in allowed_statuses new_status
  end.

(** A walk of statuses each step of which the validator accepts. *)
Definition valid_walk (l : list string) : Prop :=
  forall (n : nat) (a b : string),
    l !! n = Some a -> l !! S n = Some b -> _is_valid_status_transition a b = true.

(** ** Python values, exceptions and the builtins used by the handler *)

(** Python exceptions that the modelled code can raise or catch. *)
Inductive exn :=
| TypeError | AttributeError | ValueError | KeyError | RecursionError
| DbError.

(** Result of a Python computation: a value or a raised exception. *)
Inductive PyResult (A : Type) :=
| Ok (a : A)
| Raise (e : exn).
Arguments Ok {A} a.
Arguments Raise {A} e.

Definition py_bind {A B} (r : PyResult A) (k : A -> PyResult B) : PyResult B :=
  match r with Ok a => k a | Raise e => Raise e end.

(** A loosely typed payload, as decoded from the messaging channel: a tree
    of dicts (string keys), lists and scalars. *)
Inductive value :=
| VNone
| VBool (b : bool)
| VInt (z : Z)
| VStr (s : string)
| VList (l : list value)
| VDict (kvs : list (string * value)).

(** Python truthiness. *)
Definition truthy (v : value) : bool :=
  match v with
  | VNone => false
  | VBool b => b
  | VInt z => negb (Z.eqb z 0)
  | VStr s => negb (String.eqb s "")
  | VList l => negb (Nat.eqb (List.length l) 0)
  | VDict kvs => negb (Nat.eqb (List.length kvs) 0)
  end.

Definition is_dict (v : value) : bool :=
  match v with VDict _ => true | _ => false end.

(** [d.get(k, default)]: an [AttributeError] on anything but a dict. *)
Definition py_get (d : value) (k : string) (default : value) : PyResult value :=
  match d with
  | VDict kvs => Ok (match assoc k kvs with Some v => v | None => default end)
  | _ => Raise AttributeError
  end.

(** [d.get(k)] *)
Definition py_get1 (d : value) (k : string) : PyResult value := py_get d k VNone.

(** A chain [d.get(k1, {}).get(k2, {})...get(kn, default)]. *)
Fixpoint py_get_chain (d : value) (ks : list string) (default : value) : PyResult value :=
  match ks with
  | [] => Ok d
  | [k] => py_get d k default
  | k :: ks' => py_bind (py_get d k (VDict [])) (fun d' => py_get_chain d' ks' default)
  end.

(** ** Persistence gateway and engine state *)

(** A row returned by [db_manager.get_order_by_id]: only the
    [order_status] field is read by the handler. *)
Record row := { order_status : option string }.

(** History entry of [_record_status_history]. *)
Record hist_entry := {
  from_status : string;
  to_status : string;
  h_context : string;
  h_timestamp : Z
}.

(** [update_info] of [_add_to_pending_updates]. *)
Record update_info := {
  u_new_status : string;
  u_cookie_id : string;
  u_context : string;
  u_timestamp : Z
}.

(** An entry of [_chat_order_map[cookie_id]]. *)
Record map_entry := {
  m_order_id : string;
  m_timestamp : Z
}.

(** An entry of [_pending_system_messages] or
    [_pending_red_reminder_messages]; [pm_text] is the [send_message]
    (resp. [red_reminder]) field; [pm_user_id] is only set on red
    reminders. *)
Record pending_msg := {
  pm_message : value;
  pm_text : string;
  pm_cookie_id : string;
  pm_msg_time : string;
  pm_user_id : string;
  pm_new_status : string;
  pm_temp_order_id : string;
  pm_message_hash : Z;
  pm_timestamp : Z
}.

(** Observable effects on the outside world, in order. *)
Inductive event :=
| EvRead (order_id : string)
| EvWrite (order_id order_status cookie_id : string)
| EvSleep (ms : Z).

(** The world the handler runs in ([db_manager], the clock, [uuid4]) and
    the handler's own dicts.  [gw_faults] says, call by call, whether a
    gateway call raises (an exhausted list means no more failures). *)
Record state := {
  db : gmap string row;
  gw_faults : list bool;
  trace : list event;
  clock : Z;
  uuids : list string;
  _order_status_history : gmap string (list hist_entry);
  pending_updates : gmap string (list update_info);
  _pending_system_messages : gmap string (list pending_msg);
  _pending_red_reminder_messages : gmap string (list pending_msg);
  _chat_order_map : gmap string (list (string * map_entry))
}.

Definition set_db f s := {| db := f (db s); gw_faults := gw_faults s; trace := trace s;
  clock := clock s; uuids := uuids s; _order_status_history := _order_status_history s;
  pending_updates := pending_updates s; _pending_system_messages := _pending_system_messages s;
  _pending_red_reminder_messages := _pending_red_reminder_messages s;
  _chat_order_map := _chat_order_map s |}.
Definition set_world faults tr clk us s := {| db := db s; gw_faults := faults; trace := tr;
  clock := clk; uuids := us; _order_status_history := _order_status_history s;
  pending_updates := pending_updates s; _pending_system_messages := _pending_system_messages s;
  _pending_red_reminder_messages := _pending_red_reminder_messages s;
  _chat_order_map := _chat_order_map s |}.
Definition set_history f s := {| db := db s; gw_faults := gw_faults s; trace := trace s;
  clock := clock s; uuids := uuids s; _order_status_history := f (_order_status_history s);
  pending_updates := pending_updates s; _pending_system_messages := _pending_system_messages s;
  _pending_red_reminder_messages := _pending_red_reminder_messages s;
  _chat_order_map := _chat_order_map s |}.
Definition set_pending_updates f s := {| db := db s; gw_faults := gw_faults s; trace := trace s;
  clock := clock s; uuids := uuids s; _order_status_history := _order_status_history s;
  pending_updates := f (pending_updates s); _pending_system_messages := _pending_system_messages s;
  _pending_red_reminder_messages := _pending_red_reminder_messages s;
  _chat_order_map := _chat_order_map s |}.
Definition set_pending_sys f s := {| db := db s; gw_faults := gw_faults s; trace := trace s;
  clock := clock s; uuids := uuids s; _order_status_history := _order_status_history s;
  pending_updates := pending_updates s; _pending_system_messages := f (_pending_system_messages s);
  _pending_red_reminder_messages := _pending_red_reminder_messages s;
  _chat_order_map := _chat_order_map s |}.
Definition set_pending_red f s := {| db := db s; gw_faults := gw_faults s; trace := trace s;
  clock := clock s; uuids := uuids s; _order_status_history := _order_status_history s;
  pending_updates := pending_updates s; _pending_system_messages := _pending_system_messages s;
  _pending_red_reminder_messages := f (_pending_red_reminder_messages s);
  _chat_order_map := _chat_order_map s |}.
Definition set_chat_map f s := {| db := db s; gw_faults := gw_faults s; trace := trace s;
  clock := clock s; uuids := uuids s; _order_status_history := _order_status_history s;
  pending_updates := pending_updates s; _pending_system_messages := _pending_system_messages s;
  _pending_red_reminder_messages := _pending_red_reminder_messages s;
  _chat_order_map := f (_chat_order_map s) |}.

(** ** A state monad over [state] *)

Definition M (A : Type) : Type := state -> A * state.

Definition ret {A} (a : A) : M A := fun s => (a, s).
Definition bind {A B} (m : M A) (k : A -> M B) : M B :=
  fun s => let '(a, s') := m s in k a s'.

Notation "'let!' x ':=' m 'in' k" := (bind m (fun x => k))
  (at level 200, x name, m at level 100, k at level 200).
Definition get_state : M state := fun s => (s, s).
Definition modify (f : state -> state) : M unit := fun s => (tt, f s).

(** [time.time()] *)
Definition time_time : M Z := fun s => (clock s, s).

(** [time.sleep(ms / 1000)] *)
Definition sleep (ms : Z) : M unit :=
  fun s => (tt, set_world (gw_faults s) (trace s ++ [EvSleep ms]) (clock s + ms) (uuids s) s).

(** One call to the gateway: records the call and says whether it raised. *)
Definition gw_call (ev : event) : M bool :=
  fun s =>
    match gw_faults s with
    | b :: rest => (b, set_world rest (trace s ++ [ev]) (clock s) (uuids s) s)
    | [] => (false, set_world [] (trace s ++ [ev]) (clock s) (uuids s) s)
    end.

(** Modelled from the spec: the persistence gateway [db_manager] (§6, not
    in src/): [get_order_by_id] returns the stored row or [None], or raises
    on a transient failure. *)
Definition get_order_by_id (order_id : string) : M (PyResult (option row)) :=
  let! raised := gw_call (EvRead order_id) in
  if raised then ret (Raise DbError)
  else let! s := get_state in ret (Ok (db s !! order_id)).

(** Modelled from the spec: [db_manager.insert_or_update_order] stores the
    status and returns [True], or raises on a transient failure. *)
Definition insert_or_update_order (order_id order_status cookie_id : string)
  : M (PyResult bool) :=
  let! raised := gw_call (EvWrite order_id order_status cookie_id) in
  if raised then ret (Raise DbError)
  else let! _ := modify (set_db (insert order_id {| order_status := Some order_status |})) in
       ret (Ok true).

(** ** Status updates *)

(** [ORDER_STATUS_HANDLER_CONFIG] *)
Definition cfg_use_pending_queue : bool := true.
Definition cfg_strict_validation : bool := true.
Definition cfg_max_pending_age_hours : Z := 24.

Definition max_retries : nat := 3.

(** The two identical retry loops of [update_order_status]:
    [for attempt in range(max_retries): try: ...; break
     except: if attempt == max_retries - 1: return False
             else: time.sleep(0.1 * (attempt + 1))].
    [None] stands for the [return False] on the last attempt. *)
Fixpoint retry_loop {A} (attempts : list nat) (op : M (PyResult A)) : M (option A) :=
  match attempts with
  | [] => ret None
  | attempt :: rest =>
      let! r := op in
      match r with
      | Ok a => ret (Some a)
      | Raise _ =>
          if Nat.eqb attempt (max_retries - 1) then ret None
          else let! _ := sleep (100 * (Z.of_nat attempt + 1)) in retry_loop rest op
      end
  end.

(** [l[-n:]] *)
Definition last_n {A} (n : nat) (l : list A) : list A := drop (List.length l - n) l.

(** [_record_status_history(order_id, from_status, to_status, context)] *)
Definition _record_status_history (order_id from_status to_status context : string)
  : M unit :=
  let! now := time_time in
  let! s := get_state in
  let hist := match _order_status_history s !! order_id with Some h => h | None => [] end in
  if negb (String.eqb to_status "refund_cancelled") then
    let entry := {| from_status := from_status; to_status := to_status;
                    h_context := context; h_timestamp := now |} in
    let hist' := (hist ++ [entry])%list in
    let hist'' := if Nat.ltb 10 (List.length hist') then last_n 10 hist' else hist' in
    modify (set_history (insert order_id hist''))
  else modify (set_history (insert order_id hist)).

(** [_get_previous_status(order_id)]: the [to_status] of the last entry. *)
Definition _get_previous_status (order_id : string) : M (option string) :=
  let! s := get_state in
  match _order_status_history s !! order_id with
  | None | Some [] => ret None
  | Some h => ret (option_map to_status (last h))
  end.

(** [_add_to_pending_updates(order_id, new_status, cookie_id, context)] *)
Definition _add_to_pending_updates (order_id new_status cookie_id context : string)
  : M unit :=
  let! now := time_time in
  let! s := get_state in
  let q := match pending_updates s !! order_id with Some q => q | None => [] end in
  let info := {| u_new_status := new_status; u_cookie_id := cookie_id;
                 u_context := context; u_timestamp := now |} in
  modify (set_pending_updates (insert order_id (q ++ [info])%list)).

(** [update_order_status(order_id, new_status, cookie_id, context)].  The
    outer [except Exception: return False] is never reached: every call
    below is total. *)
Definition update_order_status (order_id new_status cookie_id context : string)
  : M bool :=
  if negb (str_in status_mapping new_status) then ret false else
  let! read := retry_loop (seq 0 max_retries) (get_order_by_id order_id) in
  match read with
  | None => ret false
  | Some None =>
      let! _ := (if cfg_use_pending_queue
                 then _add_to_pending_updates order_id new_status cookie_id context
                 else ret tt) in
      ret false
  | Some (Some current_order) =>
      let current_status :=
        match order_status current_order with Some st => st | None => "processing" end in
      if String.eqb current_status new_status then ret true
      else if cfg_strict_validation
              && negb (_is_valid_status_transition current_status new_status)
      then ret false
      else
        let! new_status' :=
          (if String.eqb new_status "refund_cancelled" then
             let! previous_status := _get_previous_status order_id in
             match previous_status with
             | Some p => ret (if String.eqb p "" then current_status else p)
             | None => ret current_status
             end
           else ret new_status) in
        let! written := retry_loop (seq 0 max_retries)
                          (insert_or_update_order order_id new_status' cookie_id) in
        match written with
        | None => ret false
        | Some success =>
            if success then
              let! _ := _record_status_history order_id current_status new_status' context in
              ret true
            else ret false
        end
  end.

(** ** Strings *)

Fixpoint n_digits_aux (fuel : nat) (n : N) (acc : string) : string :=
  match fuel with
  | O => acc
  | S f =>
      let acc' := String (ascii_of_N (48 + N.modulo n 10)) acc in
      let q := N.div n 10 in
      if N.eqb q 0 then acc' else n_digits_aux f q acc'
  end.

(** [str(n)] for an integer. *)
Definition z_to_dec (z : Z) : string :=
  if Z.ltb z 0 then String "-" (n_digits_aux (S (N.size_nat (Z.to_N (- z)))) (Z.to_N (- z)) "")
  else n_digits_aux (S (N.size_nat (Z.to_N z))) (Z.to_N z) "".

(** ** Characters of a UTF-8 string *)

(** A continuation byte [10xxxxxx] and its six payload bits. *)
Definition cont_bits (b : ascii) : option Z :=
  let n := Z.of_nat (nat_of_ascii b) in
  if (128 <=? n) && (n <? 192) then Some (n - 128) else None.

(** The first character of [s]: its code point, its bytes and the bytes
    after it.  A byte that does not start a well-formed sequence is a
    character of its own with code point [-1] (neither a digit nor a
    space); the UTF-8 encoding of a [str] has none. *)
Definition utf8_split1 (s : string) : option (Z * string * string) :=
  match s with
  | EmptyString => None
  | String a s1 =>
      let n := Z.of_nat (nat_of_ascii a) in
      let bad := Some (-1, String a EmptyString, s1) in
      if n <? 128 then Some (n, String a EmptyString, s1)
      else if n <? 192 then bad
      else if n <? 224 then
        match s1 with
        | String b s2 =>
            match cont_bits b with
            | Some x => Some ((n - 192) * 64 + x, String a (String b EmptyString), s2)
            | None => bad
            end
        | EmptyString => bad
        end
      else if n <? 240 then
        match s1 with
        | String b (String c s3) =>
            match cont_bits b, cont_bits c with
            | Some x, Some y =>
                Some ((n - 224) * 4096 + x * 64 + y, String a (String b (String c EmptyString)), s3)
            | _, _ => bad
            end
        | _ => bad
        end
      else if n <? 248 then
        match s1 with
        | String b (String c (String d s4)) =>
            match cont_bits b, cont_bits c, cont_bits d with
            | Some x, Some y, Some z =>
                Some ((n - 240) * 262144 + x * 4096 + y * 64 + z,
                      String a (String b (String c (String d EmptyString))), s4)
            | _, _, _ => bad
            end
        | _ => bad
        end
      else bad
  end.

(** The characters of [s], each as its code point and its bytes (every
    step consumes at least one byte, so [String.length s] steps suffice). *)
Fixpoint utf8_chars_fuel (fuel : nat) (s : string) : list (Z * string) :=
  match fuel with
  | O => []
  | S f =>
      match utf8_split1 s with
      | Some (cp, ch, rest) => (cp, ch) :: utf8_chars_fuel f rest
      | None => []
      end
  end.

Definition utf8_chars (s : string) : list (Z * string) := utf8_chars_fuel (String.length s) s.

Definition concat_chars (cs : list (Z * string)) : string :=
  fold_right (fun c acc => (snd c ++ acc)%string) EmptyString cs.

(** The code points [str.isspace()] and the regular-expression class [\s]
    treat as whitespace. *)
Definition python_spaces : list Z :=
  [9; 10; 11; 12; 13; 28; 29; 30; 31; 32; 133; 160; 5760; 8192; 8193; 8194; 8195; 8196;
   8197; 8198; 8199; 8200; 8201; 8202; 8232; 8233; 8239; 8287; 12288].

Definition is_space (cp : Z) : bool := existsb (Z.eqb cp) python_spaces.

Fixpoint drop_spaces (cs : list (Z * string)) : list (Z * string) :=
  match cs with
  | c :: cs' => if is_space (fst c) then drop_spaces cs' else cs
  | [] => []
  end.

(** [s.lstrip()], and the [\s*] of a regular expression. *)
Definition lstrip_spaces (s : string) : string := concat_chars (drop_spaces (utf8_chars s)).

(** [s.strip()] *)
Definition py_strip (s : string) : string :=
  concat_chars (rev (drop_spaces (rev (drop_spaces (utf8_chars s))))).

(** [s.split(sep)[0]] and [s.split(sep)[1]] (the latter [None] when the
    separator does not occur). *)
Definition split_first (sep s : string) : string :=
  match String.index 0 sep s with
  | Some i => substring 0 i s
  | None => s
  end.

Definition split_second (sep s : string) : option string :=
  match String.index 0 sep s with
  | Some i =>
      let rest := substring (i + String.length sep) (String.length s) s in
      Some (split_first sep rest)
  | None => None
  end.

Definition ends_with (suffix s : string) : bool :=
  (String.length suffix <=? String.length s)%nat
  && String.eqb (substring (String.length s - String.length suffix) (String.length suffix) s) suffix.

(** ** Chat identifiers and the chat/order mapping cache *)

(** [set.update(xs)] on a set kept in insertion order.  CPython iterates a
    set of strings in an order that depends on the per-process hash seed;
    the model fixes insertion order, which is one of those orders. *)
Definition set_update (acc xs : list string) : list string :=
  fold_left (fun a x => if str_in a x then a else (a ++ [x])%list) xs acc.

(** [_normalize_identifier_values(value)] ([bool] is an [int] in Python). *)
Definition _normalize_identifier_values (v : value) : list string :=
  let ids :=
    match v with
    | VStr s =>
        let normalized := py_strip s in
        if String.eqb normalized "" then []
        else
          let ids := [normalized] in
          let ids := if substr "@" normalized
                     then set_update ids [split_first "@" normalized] else ids in
          if ends_with ".PNM" normalized
          then set_update ids [substring 0 (String.length normalized - 4) normalized]
          else ids
    | VInt z => [z_to_dec z]
    | VBool b => [if b then "1" else "0"]
    | _ => []
    end in
  filter (fun i => negb (String.eqb i "")) ids.

Definition get_or_none (d : value) (k : string) : value :=
  match d with VDict kvs => match assoc k kvs with Some v => v | None => VNone end | _ => VNone end.

Definition reminder_params : list string := ["sid"; "itemId"; "bizOrderId"; "orderId"; "tradeId"].

(** [_extract_chat_identifiers(message)]: nothing in the [try] block can
    raise once [message] is a dict. *)
Definition _extract_chat_identifiers (message : value) : list string :=
  if negb (is_dict message) then [] else
  let message_1 := get_or_none message "1" in
  let ids :=
    if is_dict message_1 then
      let nested := get_or_none message_1 "1" in
      let ids := if is_dict nested
                 then fold_left (fun a k => set_update a (_normalize_identifier_values (get_or_none nested k)))
                                ["1"; "2"; "3"] []
                 else [] in
      let ids := fold_left (fun a k => set_update a (_normalize_identifier_values (get_or_none message_1 k)))
                           ["2"; "3"; "4"] ids in
      let message_10 := get_or_none message_1 "10" in
      if is_dict message_10 then
        let ids := set_update ids (_normalize_identifier_values (get_or_none message_10 "senderUserId")) in
        let ids := set_update ids (_normalize_identifier_values (get_or_none message_10 "receiver")) in
        let reminder_url := match message_10 with
                            | VDict kvs => match assoc "reminderUrl" kvs with Some v => v | None => VStr "" end
                            | _ => VStr "" end in
        match reminder_url with
        | VStr url =>
            fold_left (fun a param =>
                         match split_second (param ++ "=") url with
                         | Some piece => set_update a (_normalize_identifier_values (VStr (split_first "&" piece)))
                         | None => a
                         end) reminder_params ids
        | _ => ids
        end
      else ids
    else set_update [] (_normalize_identifier_values message_1) in
  let top_level_three := get_or_none message "3" in
  let ids := match top_level_three with
             | VStr _ | VInt _ | VBool _ => set_update ids (_normalize_identifier_values top_level_three)
             | _ => ids
             end in
  filter (fun i => negb (String.eqb i "")) ids.

(** [d[k] = v] on an insertion-ordered dict. *)
Definition dict_set {A} (k : string) (v : A) (d : list (string * A)) : list (string * A) :=
  if existsb (fun p => String.eqb (fst p) k) d
  then map (fun p => if String.eqb (fst p) k then (k, v) else p) d
  else (d ++ [(k, v)])%list.

(** [d.pop(k, None)] *)
Definition dict_pop {A} (k : string) (d : list (string * A)) : list (string * A) :=
  filter (fun p => negb (String.eqb (fst p) k)) d.

Definition _chat_order_map_ttl : Z := 48 * 3600 * 1000.
Definition _chat_order_map_max_size : nat := 200.

(** Stable insertion by timestamp, for [sorted(items, key=timestamp)]. *)
Fixpoint insert_by_ts (x : string * map_entry) (l : list (string * map_entry))
  : list (string * map_entry) :=
  match l with
  | [] => [x]
  | y :: l' => if Z.ltb (m_timestamp (snd x)) (m_timestamp (snd y)) then x :: l
               else y :: insert_by_ts x l'
  end.

Definition sort_by_ts (l : list (string * map_entry)) : list (string * map_entry) :=
  fold_left (fun acc x => insert_by_ts x acc) l [].

(** The mapping of one account after the insert of [_store_chat_order_mapping]
    (the body of its [with self._lock:] block, on [mapping]). *)
Definition store_mapping (now : Z) (order_id : string) (identifiers : list string)
  (mapping : list (string * map_entry)) : list (string * map_entry) :=
  let expired_keys := map fst (filter (fun p => Z.ltb _chat_order_map_ttl (now - m_timestamp (snd p))) mapping) in
  let mapping := fold_left (fun m k => dict_pop k m) expired_keys mapping in
  let mapping :=
    if (_chat_order_map_max_size <=? List.length mapping)%nat then
      let sorted_items := sort_by_ts mapping in
      let overflow := (List.length mapping + List.length identifiers - _chat_order_map_max_size)%nat in
      if (0 <? overflow)%nat
      then fold_left (fun m p => dict_pop (fst p) m) (firstn overflow sorted_items) mapping
      else mapping
    else mapping in
  fold_left (fun m i => dict_set i {| m_order_id := order_id; m_timestamp := now |} m) identifiers mapping.

(** [_store_chat_order_mapping(order_id, cookie_id, message)] *)
Definition _store_chat_order_mapping (order_id cookie_id : string) (message : value) : M unit :=
  if String.eqb order_id "" || String.eqb cookie_id "" || negb (is_dict message) then ret tt else
  let identifiers := _extract_chat_identifiers message in
  match identifiers with
  | [] => ret tt
  | _ =>
      let! now := time_time in
      let! s := get_state in
      let mapping := match _chat_order_map s !! cookie_id with Some m => m | None => [] end in
      let mapping' := store_mapping now order_id identifiers mapping in
      match mapping' with
      | [] => modify (set_chat_map (delete cookie_id))
      | _ => modify (set_chat_map (insert cookie_id mapping'))
      end
  end.

(** The [for identifier in identifiers] loop of [_lookup_order_id_by_message]:
    [inl order_id] is the early [return order_id], [inr expired_keys] the
    normal exit. *)
Fixpoint lookup_scan (now : Z) (mapping : list (string * map_entry)) (identifiers : list string)
  (expired_keys : list string) : string + list string :=
  match identifiers with
  | [] => inr expired_keys
  | identifier :: rest =>
      match assoc identifier mapping with
      | None => lookup_scan now mapping rest expired_keys
      | Some entry =>
          if Z.ltb _chat_order_map_ttl (now - m_timestamp entry)
          then lookup_scan now mapping rest (expired_keys ++ [identifier])%list
          else if negb (String.eqb (m_order_id entry) "") then inl (m_order_id entry)
          else lookup_scan now mapping rest expired_keys
      end
  end.

(** [_lookup_order_id_by_message(message, cookie_id)] *)
Definition _lookup_order_id_by_message (message : value) (cookie_id : string) : M (option string) :=
  if String.eqb cookie_id "" || negb (is_dict message) then ret None else
  let identifiers := _extract_chat_identifiers message in
  match identifiers with
  | [] => ret None
  | _ =>
      let! now := time_time in
      let! s := get_state in
      match _chat_order_map s !! cookie_id with
      | None | Some [] => ret None
      | Some mapping =>
          match lookup_scan now mapping identifiers [] with
          | inl order_id => ret (Some order_id)
          | inr expired_keys =>
              let mapping' := fold_left (fun m k => dict_pop k m) expired_keys mapping in
              let! _ := (match mapping' with
                         | [] => modify (set_chat_map (delete cookie_id))
                         | _ => modify (set_chat_map (insert cookie_id mapping'))
                         end) in
              ret None
          end
      end
  end.

(** [sorted(d.items())] for string keys (byte order of UTF-8 is code-point
    order). *)
Fixpoint insert_by_key {A} (x : string * A) (l : list (string * A)) : list (string * A) :=
  match l with
  | [] => [x]
  | y :: l' => match String.compare (fst x) (fst y) with
               | Gt => y :: insert_by_key x l'
               | _ => x :: l
               end
  end.

Definition sort_keys {A} (l : list (string * A)) : list (string * A) :=
  fold_left (fun acc x => insert_by_key x acc) l [].

(** ** Regular-expression searches of [extract_order_id]

    Each pattern is a deterministic head (no backtracking can change what it
    consumes) followed by a greedy digit group; [re_search head min s] is the
    group of the leftmost match, i.e. [re.search(p, s).group(1)] and
    [re.findall(p, s)[0]]. *)

(** The first code points of the blocks of ten Unicode decimal digits
    (category Nd, what [\d] matches in a [str] pattern). *)
Definition decimal_zeros : list Z :=
  [48; 1632; 1776; 1984; 2406; 2534; 2662; 2790; 2918; 3046; 3174; 3302; 3430; 3558; 3664;
   3792; 3872; 4160; 4240; 6112; 6160; 6470; 6608; 6784; 6800; 6992; 7088; 7232; 7248;
   42528; 43216; 43264; 43472; 43504; 43600; 44016; 65296; 66720; 68912; 69734; 69872;
   69942; 70096; 70384; 70736; 70864; 71248; 71360; 71472; 71904; 72016; 72784; 73040;
   73120; 92768; 92864; 93008; 120782; 120792; 120802; 120812; 120822; 123200; 123632;
   125264; 130032].

Definition is_decimal (cp : Z) : bool :=
  existsb (fun z => (z <=? cp) && (cp <? z + 10)) decimal_zeros.

(** The greedy [(\d+)] group: the longest prefix of decimal digits, as
    bytes, with the number of its characters. *)
Fixpoint digits_prefix_fuel (fuel : nat) (s : string) : string * nat :=
  match fuel with
  | O => (EmptyString, 0%nat)
  | S f =>
      match utf8_split1 s with
      | Some (cp, ch, rest) =>
          if is_decimal cp then
            let '(d, k) := digits_prefix_fuel f rest in ((ch ++ d)%string, S k)
          else (EmptyString, 0%nat)
      | None => (EmptyString, 0%nat)
      end
  end.

Definition digits_prefix (s : string) : string * nat := digits_prefix_fuel (String.length s) s.

Definition lit (p : string) (s : string) : option string :=
  if String.prefix p s then Some (substring (String.length p) (String.length s) s) else None.

Definition one_of (cs : string) (s : string) : option string :=
  match s with
  | String c s' => if substr (String c EmptyString) cs then Some s' else None
  | EmptyString => None
  end.

Definition opt_char (c : ascii) (s : string) : string :=
  match s with
  | String c' s' => if Ascii.eqb c c' then s' else s
  | EmptyString => s
  end.

Fixpoint re_search (head : string -> option string) (min : nat) (s : string) : option string :=
  let here :=
    match head s with
    | Some rest => let '(d, k) := digits_prefix rest in
                   if (min <=? k)%nat then Some d else None
    | None => None
    end in
  match here with
  | Some d => Some d
  | None => match s with
            | EmptyString => None
            | String _ s' => re_search head min s'
            end
  end.

(** [orderId=(\d+)] *)
Definition pat_orderId_eq (s : string) : option string := lit "orderId=" s.
(** [order_detail\?id=(\d+)] *)
Definition pat_order_detail (s : string) : option string := lit "order_detail?id=" s.
(** [orderId[=:](\d{10,})] *)
Definition pat_orderId (s : string) : option string :=
  match lit "orderId" s with Some r => one_of "=:" r | None => None end.
(** The pattern of a JSON-like id field: a double-quoted [id], optional
    whitespace, a colon, optional whitespace, an optional double quote,
    then at least ten digits. *)
Definition dquote : ascii := ascii_of_nat 34.
Definition pat_id (s : string) : option string :=
  match lit (String dquote ("id" ++ String dquote EmptyString)) s with
  | Some r =>
      match lit ":" (lstrip_spaces r) with
      | Some r' => Some (opt_char dquote (lstrip_spaces r'))
      | None => None
      end
  | None => None
  end.
(** [bizOrderId[=:](\d{10,})] *)
Definition pat_bizOrderId (s : string) : option string :=
  match lit "bizOrderId" s with Some r => one_of "=:" r | None => None end.

(** The [patterns] of the last-resort scan, in order, each with its
    minimum number of digits. *)
Definition scan_patterns : list ((string -> option string) * nat) :=
  [(pat_orderId, 10%nat); (pat_order_detail, 10%nat); (pat_id, 10%nat); (pat_bizOrderId, 10%nat)].

(** [for pattern in patterns: matches = re.findall(pattern, s);
     if matches: order_id = matches[0]; break] *)
Fixpoint first_pattern_match (ps : list ((string -> option string) * nat)) (s : string)
  : option string :=
  match ps with
  | [] => None
  | (head, min) :: ps' =>
      match re_search head min s with
      | Some d => Some d
      | None => first_pattern_match ps' s
      end
  end.

(** [s.strip(chars)] where [chars] are whole (possibly multi-byte)
    characters. *)
Fixpoint lstrip_tokens (fuel : nat) (toks : list string) (s : string) : string :=
  match fuel with
  | O => s
  | S f =>
      match List.find (fun t => String.prefix t s) toks with
      | Some t => lstrip_tokens f toks (substring (String.length t) (String.length s) s)
      | None => s
      end
  end.

Fixpoint rstrip_tokens (fuel : nat) (toks : list string) (s : string) : string :=
  match fuel with
  | O => s
  | S f =>
      match List.find (fun t => ends_with t s) toks with
      | Some t => rstrip_tokens f toks (substring 0 (String.length s - String.length t) s)
      | None => s
      end
  end.

Definition strip_tokens (toks : list string) (s : string) : string :=
  let s' := lstrip_tokens (String.length s) toks s in
  rstrip_tokens (String.length s') toks s'.

(** ** Python builtins the handler relies on

    [json.loads] on a [str], [repr] (which [str()] is on non-strings) and
    [hash] on a [str].  The theorems below hold for every implementation. *)
Class PyBuiltins := {
  json_loads : string -> PyResult value;
  py_repr : value -> PyResult string;
  py_hash : string -> Z
}.

Section Builtins.
Context `{PyBuiltins}.

(** [json.loads(v)]: a [TypeError] on anything but a string. *)
Definition py_json_loads (v : value) : PyResult value :=
  match v with VStr s => json_loads s | _ => Raise TypeError end.

(** [str(v)] *)
Definition py_str (v : value) : PyResult string :=
  match v with VStr s => Ok s | _ => py_repr v end.

Fixpoint join (sep : string) (l : list string) : string :=
  match l with
  | [] => ""
  | [x] => x
  | x :: l' => x ++ sep ++ join sep l'
  end.

Fixpoint py_results {A} (l : list (PyResult A)) : PyResult (list A) :=
  match l with
  | [] => Ok []
  | r :: l' => py_bind r (fun a => py_bind (py_results l') (fun rest => Ok (a :: rest)))
  end.

(** [hash(str(sorted(message.items()))) if isinstance(message, dict)
    else hash(str(message))]; keys are strings, so [sorted] compares keys
    only and cannot raise. *)
Definition message_hash (message : value) : PyResult Z :=
  match message with
  | VDict kvs =>
      py_bind (py_results (map (fun kv => py_bind (py_repr (VStr (fst kv))) (fun k =>
                                py_bind (py_repr (snd kv)) (fun v => Ok ("(" ++ k ++ ", " ++ v ++ ")"))))
                             (sort_keys kvs)))
              (fun items => Ok (py_hash ("[" ++ join ", " items ++ "]")))
  | _ => py_bind (py_str message) (fun s => Ok (py_hash s))
  end.

(** [re.search(pattern, v)] on a Python value: a [TypeError] unless [v] is
    a string. *)
Definition py_re_search (head : string -> option string) (min : nat) (v : value)
  : PyResult (option string) :=
  match v with VStr s => Ok (re_search head min s) | _ => Raise TypeError end.

(** [content_json_str] of [extract_order_id] and [_check_refund_message]:
    [message['1']['6']['3']['5']] with the code's defaults and type tests. *)
Definition content_json_str_of (message : value) : PyResult value :=
  py_bind (py_get message "1" (VDict [])) (fun message_1 =>
  if is_dict message_1 then
    py_bind (py_get message_1 "6" (VDict [])) (fun message_1_6 =>
    if is_dict message_1_6 then
      py_bind (py_get message_1_6 "3" (VDict [])) (fun m3 =>
      if is_dict m3 then py_get m3 "5" (VStr "") else Ok (VStr ""))
    else Ok (VStr ""))
  else Ok (VStr "")).

(** Method 1 of [extract_order_id] (the body of its first inner [try]):
    1a, the button [targetUrl]; 1b, the main [targetUrl]. *)
Definition extract_method1 (content_json_str : value) : PyResult (option string) :=
  py_bind (py_json_loads content_json_str) (fun content_data =>
  py_bind (py_get_chain content_data ["dxCard"; "item"; "main"; "exContent"; "button"; "targetUrl"] (VStr ""))
    (fun target_url =>
  py_bind (if truthy target_url then py_re_search pat_orderId_eq 1 target_url else Ok None)
    (fun order_id =>
  match order_id with
  | Some _ => Ok order_id
  | None =>
      py_bind (py_get_chain content_data ["dxCard"; "item"; "main"; "targetUrl"] (VStr ""))
        (fun main_target_url =>
      if truthy main_target_url then py_re_search pat_order_detail 1 main_target_url else Ok None)
  end))).

(** Method 2 of [extract_order_id]: the [dynamicOperation] button URL. *)
Definition extract_method2 (content_json_str : value) : PyResult (option string) :=
  py_bind (py_json_loads content_json_str) (fun content_data =>
  py_bind (py_get_chain content_data
             ["dynamicOperation"; "changeContent"; "dxCard"; "item"; "main"; "exContent"; "button"; "targetUrl"]
             (VStr ""))
    (fun dynamic_target_url =>
  if truthy dynamic_target_url then py_re_search pat_order_detail 1 dynamic_target_url else Ok None)).

(** Method 3 of [extract_order_id]: the scan of [str(message)]. *)
Definition extract_method3 (message : value) : PyResult (option string) :=
  py_bind (py_str message) (fun message_str => Ok (first_pattern_match scan_patterns message_str)).

(** [except Exception as e: logger.error(...)] around a step that would
    otherwise set [order_id]. *)
Definition absorb (r : PyResult (option string)) : option string :=
  match r with Ok o => o | Raise _ => None end.

(** The body of the outer [try] of [extract_order_id]; it starts by
    formatting [message] into a log line. *)
Definition extract_order_id_body (message : value) : PyResult (option string) :=
  py_bind (py_str message) (fun _ =>
  py_bind (content_json_str_of message) (fun content_json_str =>
  let order_id := if truthy content_json_str then absorb (extract_method1 content_json_str) else None in
  let order_id :=
    match order_id with
    | Some _ => order_id
    | None => if truthy content_json_str then absorb (extract_method2 content_json_str) else None
    end in
  let order_id :=
    match order_id with
    | Some _ => order_id
    | None => absorb (extract_method3 message)
    end in
  Ok order_id)).

(** [extract_order_id(message)] *)
Definition extract_order_id (message : value) : PyResult (option string) :=
  match extract_order_id_body message with
  | Ok r => Ok r
  | Raise _ => Ok None
  end.

(** [needle in container]: substring test on a [str], membership on a
    [list], key test on a [dict], a [TypeError] otherwise. *)
Definition py_contains (needle : string) (container : value) : PyResult bool :=
  match container with
  | VStr s => Ok (substr needle s)
  | VList l => Ok (existsb (fun v => match v with VStr s => String.eqb s needle | _ => false end) l)
  | VDict kvs => Ok (existsb (fun kv => String.eqb (fst kv) needle) kvs)
  | _ => Raise TypeError
  end.

(** [v == s] for a Python value and a string. *)
Definition eq_str (v : value) (s : string) : bool :=
  match v with VStr t => String.eqb t s | _ => false end.

(** [v.strip()]: an [AttributeError] unless [v] is a string. *)
Definition py_strip_value (v : value) : PyResult string :=
  match v with VStr s => Ok (py_strip s) | _ => Raise AttributeError end.

(** [_extract_task_name(message)] ([VNone] for [None]). *)
Definition _extract_task_name (message : value) : value :=
  if negb (is_dict message) then VNone else
  let message_1 := get_or_none message "1" in
  if negb (is_dict message_1) then VNone else
  let message_10 := get_or_none message_1 "10" in
  if negb (is_dict message_10) then VNone else
  let biz_tag := get_or_none message_10 "bizTag" in
  if negb (truthy biz_tag) then VNone else
  match py_bind (match biz_tag with VStr _ => py_json_loads biz_tag | _ => Ok biz_tag end)
                (fun biz_data => py_get1 biz_data "taskName") with
  | Ok task_name => task_name
  | Raise _ => VNone
  end.

(** [_infer_status_from_task_name(message, send_message)] *)
Definition _infer_status_from_task_name (message : value) : PyResult (option string) :=
  let task_name := _extract_task_name message in
  if negb (truthy task_name) then Ok None else
  py_bind (py_strip_value task_name) (fun task_name =>
  if String.eqb task_name "" then Ok None
  else if substr "退款申请已同意" task_name && negb (substr "退货" task_name)
          && negb (substr "改为" task_name) then Ok (Some "cancelled")
  else if substr "仅退款已同意" task_name && negb (substr "退货" task_name)
          && negb (substr "改为" task_name) then Ok (Some "cancelled")
  else if any_in ["退款成功"; "退货成功"; "退货退款成功"; "退款退货成功"; "关闭订单"; "交易关闭";
                  "退款已完成"; "交易成功，有退款"; "交易成功，已退款"] task_name
  then Ok (Some "cancelled")
  else if any_in ["改为仅退款已同意"; "发起退款申请"; "申请退款"; "退款处理中"] task_name
  then Ok (Some "refunding")
  else if any_in ["退款申请已撤销"; "退款申请已取消"; "取消退款申请"] task_name
  then Ok (Some "refund_cancelled")
  else Ok None).

(** [_infer_status_from_message(send_message, message)] *)
Definition _infer_status_from_message (send_message : string) (message : value)
  : PyResult (option string) :=
  if String.eqb send_message "" then _infer_status_from_task_name message else
  let normalized := py_strip send_message in
  let normalized := py_strip (strip_tokens ["【"; "】"] (strip_tokens ["["; "]"] normalized)) in
  if any_in ["退款成功"; "退货成功"; "退货退款成功"] normalized
     || any_in ["钱款已原路退返"; "钱款已退回"; "款项已退回"; "交易成功，已退款"; "交易关闭，已退款"] normalized
  then Ok (Some "cancelled")
  else if substr "已退款" normalized && any_in ["交易成功"; "交易关闭"] normalized
  then Ok (Some "cancelled")
  else if (substr "退款申请" normalized || substr "退货申请" normalized)
          && any_in ["已同意"; "同意了"; "通过了"; "同意退款"; "同意退货"] normalized
  then Ok (Some "refunding")
  else if (substr "退款申请" normalized || substr "退货申请" normalized)
          && any_in ["已撤销"; "撤销了"; "取消了"; "已取消"] normalized
  then Ok (Some "refund_cancelled")
  else if any_in ["买家已付款"; "付款完成"; "已付款"; "等待你发货"; "待发货"] normalized
  then Ok (Some "pending_ship")
  else if any_in ["你已发货"; "已发货"; "等待买家确认收货"] normalized
  then Ok (Some "shipped")
  else if any_in ["确认收货"; "交易成功"] normalized
  then Ok (Some "completed")
  else if substr "交易关闭" normalized || substr "关闭了订单" normalized
  then Ok (Some "cancelled")
  else _infer_status_from_task_name message.

Definition refund_done_keywords : list string :=
  ["退款成功"; "钱款已原路退返"; "钱款已退回"; "退款已完成"; "交易关闭，已退款"; "交易成功，已退款";
   "交易成功，有退款"].

(** [s.strip().strip('[]【】')] *)
Definition strip_brackets (s : string) : string :=
  strip_tokens ["["; "]"; "【"; "】"] (py_strip s).

(** Step 1 of [_check_refund_message]: the [tip] field. *)
Definition check_refund_tip (tip_content : value) : PyResult (option string) :=
  if negb (truthy tip_content) then Ok None else
  py_bind (py_strip_value tip_content) (fun t =>
  let normalized_tip := strip_tokens ["["; "]"; "【"; "】"] t in
  if any_in refund_done_keywords normalized_tip then Ok (Some "cancelled")
  else if (substr "退款申请" normalized_tip || substr "退货申请" normalized_tip)
          && any_in ["已同意"; "同意"; "处理中"] normalized_tip
  then Ok (Some "refunding")
  else Ok None).

(** [title and needle in title] *)
Definition title_has (needle : string) (title : value) : PyResult bool :=
  if truthy title then py_contains needle title else Ok false.

(** [any(k in v for k in ks)] on a Python value. *)
Fixpoint py_any_contains (ks : list string) (v : value) : PyResult bool :=
  match ks with
  | [] => Ok false
  | k :: ks' => py_bind (py_contains k v) (fun b => if b then Ok true else py_any_contains ks' v)
  end.

(** Step 2 of [_check_refund_message]: the [dynamicOperation] card. *)
Definition check_refund_card (message content_data : value) : PyResult (option string) :=
  py_bind (py_get_chain content_data ["dynamicOperation"; "changeContent"] (VDict [])) (fun dynamic_content =>
  if negb (truthy dynamic_content) then Ok None else
  py_bind (py_get_chain dynamic_content ["dxCard"; "item"; "main"] (VDict [])) (fun dx_card =>
  py_bind (if is_dict dx_card then py_get dx_card "exContent" (VDict []) else Ok (VDict [])) (fun ex_content =>
  py_bind (if is_dict ex_content then py_get ex_content "title" (VStr "") else Ok (VStr "")) (fun title =>
  py_bind (py_bind (py_get ex_content "button" (VDict [])) (fun b =>
             if is_dict b then py_get b "text" (VStr "")
             else match b with
                  | VStr _ => py_get ex_content "button" (VStr "")
                  | _ => Ok (VStr "")
                  end)) (fun button_text =>
  if eq_str title "我发起了退款申请" && eq_str button_text "已撤销" then Ok (Some "refund_cancelled")
  else
  py_bind (title_has "退货" title) (fun t1 =>
  if t1 && eq_str button_text "已同意" then Ok (Some "refunding")
  else
  py_bind (title_has "退款" title) (fun t2 =>
  if t2 && (eq_str button_text "已同意" || eq_str button_text "同意退款") then
    let task_name := _extract_task_name message in
    let task_name := if truthy task_name then task_name else VStr "" in
    py_bind (if truthy task_name then py_any_contains ["退货"; "退货退款"] task_name else Ok false)
      (fun b => if b then Ok (Some "refunding") else Ok (Some "cancelled"))
  else Ok None))))))).

(** Step 3 of [_check_refund_message]: [detailNotice] / [reminderContent]. *)
Fixpoint check_refund_extra (extra : list value) : PyResult (option string) :=
  match extra with
  | [] => Ok None
  | extra_text :: rest =>
      if negb (truthy extra_text) then check_refund_extra rest else
      py_bind (py_str extra_text) (fun s =>
      let normalized_extra := strip_brackets s in
      if String.eqb normalized_extra "" then check_refund_extra rest
      else if any_in refund_done_keywords normalized_extra then Ok (Some "cancelled")
      else if (substr "退款申请" normalized_extra || substr "退货申请" normalized_extra)
              && any_in ["已同意"; "处理中"; "待处理"] normalized_extra
      then Ok (Some "refunding")
      else check_refund_extra rest)
  end.

(** [message.get('10', {}).get(k) if isinstance(message.get('10'), dict) else ''] *)
Definition message_10_field (message : value) (k : string) : PyResult value :=
  py_bind (py_get1 message "10") (fun m10 =>
  if is_dict m10 then py_bind (py_get message "10" (VDict [])) (fun d => py_get1 d k)
  else Ok (VStr "")).

(** The body of [_check_refund_message]; both of its [except] clauses
    return [None]. *)
Definition check_refund_body (message : value) : PyResult (option string) :=
  py_bind (py_get message "1" (VDict [])) (fun message_1 =>
  if negb (is_dict message_1) then Ok None else
  py_bind (py_get message_1 "6" (VDict [])) (fun message_1_6 =>
  if negb (is_dict message_1_6) then Ok None else
  py_bind (py_bind (py_get message_1_6 "3" (VDict [])) (fun m3 =>
             if is_dict m3 then py_get m3 "5" (VStr "") else Ok (VStr ""))) (fun content_json_str =>
  if negb (truthy content_json_str) then Ok None else
  py_bind (py_json_loads content_json_str) (fun content_data =>
  py_bind (if is_dict content_data then
             py_bind (py_get1 content_data "tip") (fun tip_field =>
               match tip_field with
               | VDict _ => py_get tip_field "tip" (VStr "")
               | VStr _ => Ok tip_field
               | _ => Ok (VStr "")
               end)
           else Ok (VStr "")) (fun tip_content =>
  py_bind (check_refund_tip tip_content) (fun r =>
  match r with
  | Some st => Ok (Some st)
  | None =>
      py_bind (check_refund_card message content_data) (fun r =>
      match r with
      | Some st => Ok (Some st)
      | None =>
          py_bind (message_10_field message "detailNotice") (fun detail_notice =>
          py_bind (message_10_field message "reminderContent") (fun reminder_content =>
          check_refund_extra [detail_notice; reminder_content]))
      end)
  end)))))).

(** [_check_refund_message(message, send_message)] *)
Definition _check_refund_message (message : value) : option string :=
  absorb (check_refund_body message).


(** [uuid.uuid4().hex[:8]] *)
Definition fresh_uuid : M string :=
  fun s => match uuids s with
           | u :: rest => (u, set_world (gw_faults s) (trace s) (clock s) rest s)
           | [] => ("00000000", s)
           end.

(** The literal table [message_status_mapping] of [handle_system_message]. *)
Definition message_status_mapping : list (string * string) :=
  [("[买家确认收货，交易成功]", "completed");
   ("[你已确认收货，交易成功]", "completed");
   ("[你已发货]", "shipped");
   ("你已发货", "shipped");
   ("[你已发货，请等待买家确认收货]", "shipped");
   ("[我已付款，等待你发货]", "pending_ship");
   ("[我已拍下，待付款]", "processing");
   ("[买家已付款]", "pending_ship");
   ("[付款完成]", "pending_ship");
   ("[已付款，待发货]", "pending_ship");
   ("[退款成功，钱款已原路退返]", "cancelled");
   ("[你关闭了订单，钱款已原路退返]", "cancelled")].

(** The classification of [handle_system_message]: the refund check, then
    the literal table, then the inference (which may raise). *)
Definition classify_system_message (message : value) (send_message : string)
  : PyResult (option string) :=
  match _check_refund_message message with
  | Some refund_status => Ok (Some refund_status)
  | None =>
      match assoc send_message message_status_mapping with
      | Some st => Ok (Some st)
      | None => _infer_status_from_message send_message message
      end
  end.

(** [handle_system_message(message, send_message, cookie_id, msg_time)];
    an exception anywhere returns [False] (the mutations done before it
    stay). *)
Definition handle_system_message (message : value) (send_message cookie_id msg_time : string)
  : M bool :=
  match classify_system_message message send_message with
  | Raise _ => ret false
  | Ok None => ret false
  | Ok (Some new_status) =>
      let order_id := match extract_order_id message with Ok (Some o) => o | _ => "" end in
      let! order_id :=
        (if negb (String.eqb order_id "") then
           let! _ := _store_chat_order_mapping order_id cookie_id message in ret (Some order_id)
         else
           let! found := _lookup_order_id_by_message message cookie_id in
           match found with
           | Some o =>
               let! _ := _store_chat_order_mapping o cookie_id message in ret (Some o)
           | None => ret None
           end) in
      match order_id with
      | Some order_id =>
          let! _ := update_order_status order_id new_status cookie_id
                      (send_message ++ " - " ++ msg_time) in
          ret true
      | None =>
          if negb cfg_use_pending_queue then ret false else
          let! now := time_time in
          let! u := fresh_uuid in
          let temp_order_id := "temp_" ++ z_to_dec now ++ "_" ++ u in
          let! _ := _add_to_pending_updates temp_order_id new_status cookie_id
                      (send_message ++ " - " ++ msg_time ++ " - 等待订单ID提取") in
          let! s := get_state in
          let q := match _pending_system_messages s !! cookie_id with Some q => q | None => [] end in
          let! _ := modify (set_pending_sys (insert cookie_id q)) in
          match message_hash message with
          | Raise _ => ret false
          | Ok h =>
              let! ts := time_time in
              let entry := {| pm_message := message; pm_text := send_message;
                              pm_cookie_id := cookie_id; pm_msg_time := msg_time;
                              pm_user_id := ""; pm_new_status := new_status;
                              pm_temp_order_id := temp_order_id; pm_message_hash := h;
                              pm_timestamp := ts |} in
              let! _ := modify (set_pending_sys (insert cookie_id (q ++ [entry])%list)) in
              ret true
          end
      end
  end.

(** The largest index whose element satisfies [p]: the loop
    [for i in range(len(q) - 1, -1, -1): if ...: break]. *)
Fixpoint last_index_where {A} (p : A -> bool) (l : list A) : option nat :=
  match l with
  | [] => None
  | x :: l' =>
      match last_index_where p l' with
      | Some i => Some (S i)
      | None => if p x then Some 0%nat else None
      end
  end.

(** Selection of the pending entry by [on_order_id_extracted]: the newest
    entry whose hash equals [message_hash] (when a message is given), else
    [pop(0)]; returns the entry and the queue left behind. *)
Definition select_pending (h : option Z) (q : list pending_msg)
  : option pending_msg * list pending_msg :=
  let '(picked, q) :=
    match h with
    | Some h =>
        match last_index_where (fun m => Z.eqb (pm_message_hash m) h) q with
        | Some i => (q !! i, delete i q)
        | None => (None, q)
        end
    | None => (None, q)
    end in
  match picked with
  | Some _ => (picked, q)
  | None => match q with
            | m :: rest => (Some m, rest)
            | [] => (None, [])
            end
  end.

(** One queue block of [on_order_id_extracted] (the system-message block
    and the red-reminder block are the same code on different dicts). *)
Definition resolve_pending
  (get_q : state -> gmap string (list pending_msg))
  (set_q : (gmap string (list pending_msg) -> gmap string (list pending_msg)) -> state -> state)
  (ctx : pending_msg -> string)
  (order_id cookie_id : string) (message : value) : M (PyResult unit) :=
  let! s := get_state in
  match get_q s !! cookie_id with
  | None | Some [] => ret (Ok tt)
  | Some q =>
      match (if truthy message then py_bind (message_hash message) (fun h => Ok (Some h))
             else Ok None) with
      | Raise e => ret (Raise e)
      | Ok h =>
          let '(pending_msg, q') := select_pending h q in
          let! _ := modify (set_q (insert cookie_id q')) in
          match pending_msg with
          | None => ret (Ok tt)
          | Some pm =>
              let! _ := update_order_status order_id (pm_new_status pm) cookie_id (ctx pm) in
              let! _ := modify (set_pending_updates (delete (pm_temp_order_id pm))) in
              let! s := get_state in
              match get_q s !! cookie_id with
              | Some [] => let! _ := modify (set_q (delete cookie_id)) in ret (Ok tt)
              | _ => ret (Ok tt)
              end
          end
      end
  end.

Definition system_context (pm : pending_msg) : string :=
  pm_text pm ++ " - " ++ pm_msg_time pm ++ " - 延迟处理".

Definition red_context (pm : pending_msg) : string :=
  pm_text pm ++ " - 用户" ++ pm_user_id pm ++ " - " ++ pm_msg_time pm ++ " - 延迟处理".


End Builtins.

(** ** A concrete instance of the builtins, for evaluating the model *)

Definition backslash : ascii := ascii_of_nat 92.
Definition squote : ascii := ascii_of_nat 39.

Definition hex_digit (n : nat) : ascii :=
  if (n <? 10)%nat then ascii_of_nat (48 + n) else ascii_of_nat (87 + n).

(** The escaping of [repr(str)] (bytes from 128 on belong to printable
    non-ASCII characters and are kept). *)
Fixpoint repr_escape (q : ascii) (s : string) : string :=
  match s with
  | EmptyString => EmptyString
  | String c s' =>
      let n := nat_of_ascii c in
      let e :=
        if Ascii.eqb c backslash then String backslash (String backslash EmptyString)
        else if Ascii.eqb c q then String backslash (String q EmptyString)
        else if (n =? 9)%nat then String backslash "t"
        else if (n =? 10)%nat then String backslash "n"
        else if (n =? 13)%nat then String backslash "r"
        else if ((n <? 32) || (n =? 127))%nat
        then String backslash (String "x" (String (hex_digit (n / 16)) (String (hex_digit (n mod 16)) EmptyString)))
        else String c EmptyString in
      e ++ repr_escape q s'
  end.

(** [repr(s)] for a string: single quotes unless the text holds a single
    quote and no double quote. *)
Definition repr_str (s : string) : string :=
  let q := if substr (String squote EmptyString) s && negb (substr (String dquote EmptyString) s)
           then dquote else squote in
  String q (repr_escape q s ++ String q EmptyString).

(** [repr(v)] *)
Fixpoint repr_value (v : value) : string :=
  match v with
  | VNone => "None"
  | VBool b => if b then "True" else "False"
  | VInt z => z_to_dec z
  | VStr s => repr_str s
  | VList l => "[" ++ join ", " (map repr_value l) ++ "]"
  | VDict kvs => "{" ++ join ", " (map (fun kv => repr_str (fst kv) ++ ": " ++ repr_value (snd kv)) kvs) ++ "}"
  end.

(** A polynomial string hash modulo the Mersenne prime 2^61 - 1 (the
    modulus of CPython's numeric hash). *)
Fixpoint poly_hash (h : Z) (s : string) : Z :=
  match s with
  | EmptyString => h
  | String c s' => poly_hash ((h * 31 + Z.of_nat (nat_of_ascii c)) mod 2305843009213693951) s'
  end.

(** Builtins for evaluation: [repr] as above, a string hash, and a
    [json.loads] that rejects every document (the inputs evaluated below
    carry no JSON content). *)
Definition eval_builtins : PyBuiltins := {|
  json_loads := fun _ => Raise ValueError;
  py_repr := fun v => Ok (repr_value v);
  py_hash := poly_hash 0
|}.

(** ** Gateway retries, as a function of the pending faults *)

(** The events of [k] attempts of the gateway call [ev], from attempt
    [a] on, with the back-off sleep [0.1 * (attempt + 1)] between two
    attempts. *)
Fixpoint attempts (ev : event) (a k : nat) : list event :=
  match k with
  | O => []
  | S O => [ev]
  | S k' => ev :: EvSleep (100 * (Z.of_nat a + 1)) :: attempts ev (S a) k'
  end.

(** How many attempts the three-attempt loop makes against the pending
    faults, whether its last attempt succeeds, and the time it sleeps. *)
Definition retry_count (faults : list bool) : nat :=
  match faults with
  | true :: true :: _ => 3
  | true :: _ => 2
  | _ => 1
  end.

Definition retry_ok (faults : list bool) : bool :=
  match faults with true :: true :: true :: _ => false | _ => true end.

Definition backoff (n : nat) : Z :=
  match n with 2%nat => 100 | 3%nat => 300 | _ => 0 end.

(** The state after the attempts of the loop on [ev]. *)
Definition after_retries (ev : event) (s : state) : state :=
  let n := retry_count (gw_faults s) in
  set_world (drop n (gw_faults s)) (trace s ++ attempts ev 0 n)%list
            (clock s + backoff n) (uuids s) s.

(** The shape of both gateway operations: one call, then a computation
    that cannot raise. *)
Definition gw_op {A} (ev : event) (k : M A) : M (PyResult A) :=
  let! raised := gw_call ev in
  if raised then ret (Raise DbError) else let! a := k in ret (Ok a).

(** ** Concrete inputs *)

(** A handler state with empty queues, no gateway failures and no pending
    uuids. *)
Definition mk_state (d : gmap string row) (h : gmap string (list hist_entry))
  (cm : gmap string (list (string * map_entry))) (clk : Z) : state :=
  {| db := d; gw_faults := []; trace := []; clock := clk; uuids := [];
     _order_status_history := h; pending_updates := ∅; _pending_system_messages := ∅;
     _pending_red_reminder_messages := ∅; _chat_order_map := cm |}.

(** Order [o1] persisted as [refunding], with one history entry
    (pending_ship, refunding). *)
Definition refund_scenario_state : state :=
  mk_state {[ "o1" := {| order_status := Some "refunding" |} ]}
           {[ "o1" := [{| from_status := "pending_ship"; to_status := "refunding";
                          h_context := "[买家已付款]"; h_timestamp := 0 |}] ]}
           ∅ 1000.

(** Account [acc] with 199 fresh mappings. *)
Definition full_mapping : list (string * map_entry) :=
  map (fun n => ("chat" ++ z_to_dec (Z.of_nat n), {| m_order_id := "1000000000"; m_timestamp := 0 |}))
      (seq 0 199).

Definition full_mapping_state : state := mk_state ∅ ∅ {[ "acc" := full_mapping ]} 0.

(** A payload whose only chat identifier carries a domain suffix: it yields
    two identifiers. *)
Definition suffixed_sender_message : value := VDict [("1", VStr "u1@goofish")].

(** Account [acc] maps [chatA] (stored at time 0, now expired) and [chatB]
    (stored now). *)
Definition expired_then_fresh_state : state :=
  mk_state ∅ ∅
    {[ "acc" := [("chatA", {| m_order_id := "1000000000"; m_timestamp := 0 |});
                 ("chatB", {| m_order_id := "2000000000"; m_timestamp := _chat_order_map_ttl + 1 |})] ]}
    (_chat_order_map_ttl + 1).

Definition two_chat_message : value :=
  VDict [("1", VDict [("2", VStr "chatA"); ("3", VStr "chatB")])].

(** Order [1234567890] is [cancelled]; the chat [chatA] of account [acc]
    maps to it. *)
Definition closed_order_state : state :=
  mk_state {[ "1234567890" := {| order_status := Some "cancelled" |} ]} ∅
           {[ "acc" := [("chatA", {| m_order_id := "1234567890"; m_timestamp := 0 |})] ]} 1000.

Definition chat_message : value := VDict [("1", VStr "chatA")].

(** Order [o1] persisted as [shipped]. *)
Definition shipped_order_state : state :=
  mk_state {[ "o1" := {| order_status := Some "shipped" |} ]} ∅ ∅ 0.

(** [decimal_digits d n]: [d] is the UTF-8 encoding of [n] characters,
    each a decimal digit. *)
Inductive decimal_digits : string -> nat -> Prop :=
| dd_nil : decimal_digits EmptyString 0
| dd_cons (s : string) (cp : Z) (ch rest : string) (n : nat) :
    utf8_split1 s = Some (cp, ch, rest) -> is_decimal cp = true ->
    decimal_digits rest n -> decimal_digits s (S n).

(** A non-empty string of decimal digits. *)
Definition digit_id (d : string) : Prop := exists n, (1 <= n)%nat /\ decimal_digits d n.

(** The payload of [order_text_message] with the id in fullwidth digits. *)
Definition fullwidth_order_text_message : value :=
  VDict [("x", VStr "orderId=１２３４５６７８９０")].

(** A payload whose only text carries an [orderId=] parameter. *)
Definition order_text_message : value := VDict [("x", VStr "orderId=1234567890")].

(** The structural hash of [chat_message] under the concrete builtins. *)
Definition chat_message_hash : Z :=
  match @message_hash eval_builtins chat_message with Ok h => h | Raise _ => 0 end.

Definition queued_msg (text new_status temp : string) (h : Z) : pending_msg :=
  {| pm_message := chat_message; pm_text := text; pm_cookie_id := "acc"; pm_msg_time := "t";
     pm_user_id := ""; pm_new_status := new_status; pm_temp_order_id := temp;
     pm_message_hash := h; pm_timestamp := 0 |}.

(** Two deferred system messages of account [acc]: the older one with an
    unrelated hash, the newer one with the hash of [chat_message]. *)
Definition queued_list : list pending_msg :=
  [queued_msg "[买家已付款]" "pending_ship" "temp_a" 7;
   queued_msg "你已发货" "shipped" "temp_b" chat_message_hash].

Definition queued_state : state :=
  {| db := {[ "1234567890" := {| order_status := Some "pending_ship" |} ]};
     gw_faults := []; trace := []; clock := 1000; uuids := [];
     _order_status_history := ∅;
     pending_updates := {[ "temp_b" := [{| u_new_status := "shipped"; u_cookie_id := "acc";
                                           u_context := ""; u_timestamp := 0 |}] ]};
     _pending_system_messages := {[ "acc" := queued_list ]};
     _pending_red_reminder_messages := ∅; _chat_order_map := ∅ |}.

(** ** Further handler functions *)

(** [_get_allowed_transitions(current_status)] *)
Definition _get_allowed_transitions (current_status : string) : list string :=
  match assoc current_status VALID_TRANSITIONS with
  | Some allowed => allowed
  | None => ["所有状态"]
  end.

(** The [for update_info in updates] loop shared by
    [process_pending_updates] and [_process_updates_outside_lock]: each
    update is replayed through [update_order_status] with the context
    [f"待处理队列: {context}"]; the successes are counted. *)
Fixpoint replay_updates (order_id : string) (updates : list update_info)
  (processed_count : nat) : M nat :=
  match updates with
  | [] => ret processed_count
  | update_info :: rest =>
      let! success := update_order_status order_id (u_new_status update_info)
                        (u_cookie_id update_info) ("待处理队列: " ++ u_context update_info) in
      replay_updates order_id rest (if success then S processed_count else processed_count)
  end.

(** [process_pending_updates(order_id)] *)
Definition process_pending_updates (order_id : string) : M bool :=
  let! s := get_state in
  match pending_updates s !! order_id with
  | None => ret false
  | Some updates =>
      let! _ := modify (set_pending_updates (delete order_id)) in
      let! processed_count := replay_updates order_id updates 0 in
      ret (Nat.ltb 0 processed_count)
  end.

(** The loop of [process_all_pending_updates] over [order_ids], the
    snapshot [list(self.pending_updates.keys())]. *)
Fixpoint process_orders (order_ids : list string) (processed_orders : nat) : M nat :=
  match order_ids with
  | [] => ret processed_orders
  | order_id :: rest =>
      let! processed := process_pending_updates order_id in
      process_orders rest (if processed then S processed_orders else processed_orders)
  end.

(** [process_all_pending_updates()], given the key snapshot: the dict's
    insertion order, which the gmap does not keep, is the argument. *)
Definition process_all_pending_updates (order_ids : list string) : M nat :=
  let! s := get_state in
  if decide (pending_updates s = ∅) then ret 0%nat
  else process_orders order_ids 0.

(** [_process_updates_outside_lock(order_id, updates)] *)
Definition _process_updates_outside_lock (order_id : string) (updates : list update_info)
  : M unit :=
  let! _ := replay_updates order_id updates 0 in ret tt.

(** [on_order_details_fetched(order_id)] *)
Definition on_order_details_fetched (order_id : string) : M unit :=
  if negb cfg_use_pending_queue then ret tt else
  let! s := get_state in
  match pending_updates s !! order_id with
  | None => ret tt
  | Some updates =>
      let! _ := modify (set_pending_updates (delete order_id)) in
      _process_updates_outside_lock order_id updates
  end.

(** One [for key, entries in d.items()] block of
    [clear_old_pending_updates]: the entries younger than [max_age] are
    kept, in order, and the keys left with none are deleted. *)
Definition clear_expired {A} (timestamp : A -> Z) (current_time max_age : Z)
  (d : gmap string (list A)) : gmap string (list A) :=
  omap (fun entries =>
          match filter (fun e => Z.ltb (current_time - timestamp e) max_age) entries with
          | [] => None
          | valid => Some valid
          end) d.

(** [clear_old_pending_updates(max_age_hours)] ([None] for the default);
    the clock counts milliseconds. *)
Definition clear_old_pending_updates (max_age_hours : option Z) : M unit :=
  if negb cfg_use_pending_queue then ret tt else
  let max_age_hours := match max_age_hours with Some h => h | None => cfg_max_pending_age_hours end in
  let! current_time := time_time in
  let max_age := max_age_hours * 3600 * 1000 in
  let! _ := modify (set_pending_updates (clear_expired u_timestamp current_time max_age)) in
  let! _ := modify (set_pending_sys (clear_expired pm_timestamp current_time max_age)) in
  modify (set_pending_red (clear_expired pm_timestamp current_time max_age)).

(** [handle_auto_delivery_order_status(order_id, cookie_id, context)] *)
Definition handle_auto_delivery_order_status (order_id cookie_id context : string) : M bool :=
  update_order_status order_id "shipped" cookie_id context.

(** [handle_order_basic_info_status(order_id, cookie_id, context)] *)
Definition handle_order_basic_info_status (order_id cookie_id context : string) : M bool :=
  update_order_status order_id "processing" cookie_id context.

Section RedReminder.
Context `{PyBuiltins}.


End RedReminder.

(** ** Properties of the handler's dicts *)

(** Every order's history has at most 10 entries, none of them to
    [refund_cancelled]. *)
Definition history_ok (h : gmap string (list hist_entry)) : Prop :=
  forall order_id entries, h !! order_id = Some entries ->
    (List.length entries <= 10)%nat /\ Forall (fun e => to_status e <> "refund_cancelled") entries.

(** The updates an order missing from the database puts back in its
    queue when they are replayed at time [now]: those with a known status,
    with the replay context and the new timestamp. *)
Definition requeue (now : Z) (updates : list update_info) : list update_info :=
  map (fun u => {| u_new_status := u_new_status u; u_cookie_id := u_cookie_id u;
                   u_context := "待处理队列: " ++ u_context u; u_timestamp := now |})
      (List.filter (fun u => str_in status_mapping (u_new_status u)) updates).

(** Appending [q] to the queue of [order_id], as a run of
    [_add_to_pending_updates] calls does. *)
Definition append_queue (order_id : string) (q : list update_info)
  (p : gmap string (list update_info)) : gmap string (list update_info) :=
  match q with
  | [] => p
  | _ => <[order_id := (match p !! order_id with Some l => l | None => [] end ++ q)%list]> p
  end.

(** [d'] keeps of each list of [d] exactly its entries younger than
    [max_age] ([now - timestamp < max_age]), in their order and with their
    repetitions, and has no key whose list lost every entry. *)
Definition swept {A} (timestamp : A -> Z) (now max_age : Z) (d d' : gmap string (list A)) : Prop :=
  forall k, d' !! k =
    match d !! k with
    | Some l =>
        match List.filter (fun e => Z.ltb (now - timestamp e) max_age) l with
        | [] => None
        | young => Some young
        end
    | None => None
    end.

(** A classification result names a status of [status_mapping]. *)
Definition in_statuses (r : PyResult (option string)) : Prop :=
  forall x, r = Ok (Some x) -> In x status_mapping.

(** A queued update of account [acc]. *)
Definition upd (v : string) : update_info :=
  {| u_new_status := v; u_cookie_id := "acc"; u_context := "ctx"; u_timestamp := 0 |}.

(** Order [o1] persisted as [shipped], with one queued update to
    [completed]. *)
Definition queued_update_state : state :=
  set_pending_updates (fun _ => {[ "o1" := [upd "completed"] ]}) shipped_order_state.

(** No order stored; two updates queued for [o9], one with a known status
    and one with an unknown one. *)
Definition orphan_queue_state : state :=
  set_pending_updates (fun _ => {[ "o9" := [upd "shipped"; upd "bogus"] ]}) (mk_state ∅ ∅ ∅ 5000).


(** * Proofs *)

(** ** Status model *)

Ltac eqb_cases H :=
  repeat match type of H with
  | context [String.eqb ?x ?y] =>
      destruct (String.eqb_spec x y); subst; cbn in H
  end.

Definition table_key (s : string) : Prop := assoc s VALID_TRANSITIONS <> None.

Lemma valid_transition_cases (a b : string) :
  _is_valid_status_transition a b = true ->
  assoc a VALID_TRANSITIONS = None \/
  In (a, b) [("processing", "pending_ship"); ("processing", "shipped");
             ("processing", "completed"); ("processing", "cancelled");
             ("pending_ship", "shipped"); ("pending_ship", "completed");
             ("pending_ship", "cancelled"); ("pending_ship", "refunding");
             ("shipped", "completed"); ("shipped", "cancelled"); ("shipped", "refunding");
             ("completed", "cancelled"); ("completed", "refunding");
             ("refunding", "completed"); ("refunding", "cancelled");
             ("refunding", "refund_cancelled")].
Proof.
  unfold _is_valid_status_transition.
  destruct (assoc a VALID_TRANSITIONS) as [l|] eqn:E; [|now left].
  intros H. right. cbn in E. eqb_cases E; try discriminate;
    injection E as <-; cbn in H; eqb_cases H; try discriminate; cbn; tauto.
Qed.

Lemma valid_step_table_key (a b : string) :
  table_key a -> _is_valid_status_transition a b = true -> table_key b.
Proof.
  intros Ha H. apply valid_transition_cases in H as [H|H]; [contradiction|].
  unfold table_key. cbn in H.
  repeat (destruct H as [H|H]; [injection H as <- <-; cbn; discriminate|]).
  contradiction.
Qed.

Lemma valid_step_not_processing (a b : string) :
  a <> "processing" -> _is_valid_status_transition a b = true ->
  table_key a -> b <> "processing".
Proof.
  intros Hne H Ha. apply valid_transition_cases in H as [H|H]; [contradiction|].
  cbn in H.
  repeat (destruct H as [H|H]; [injection H as <- <-; congruence|]).
  contradiction.
Qed.

Lemma walk_table_key (l : list string) (i m : nat) (si sm : string) :
  valid_walk l -> l !! i = Some si -> table_key si -> (i <= m)%nat ->
  l !! m = Some sm -> table_key sm.
Proof.
  intros Hw Hi Hk Hle. revert sm.
  induction Hle as [|m Hle IH]; intros sm Hm.
  - congruence.
  - destruct (l !! m) as [sp|] eqn:Ep.
    + eapply valid_step_table_key; [apply (IH sp eq_refl)|].
      eapply Hw; eassumption.
    + apply lookup_lt_Some in Hm. apply lookup_ge_None in Ep. lia.
Qed.

Lemma walk_not_processing (l : list string) (j m : nat) (sj sm : string) :
  valid_walk l -> l !! j = Some sj -> table_key sj ->
  (forall (n : nat) (s : string), (j <= n)%nat -> l !! n = Some s -> table_key s) ->
  sj <> "processing" -> (j <= m)%nat -> l !! m = Some sm -> sm <> "processing".
Proof.
  intros Hw Hj Hk Hall Hne Hle. revert sm.
  induction Hle as [|m Hle IH]; intros sm Hm.
  - congruence.
  - destruct (l !! m) as [sp|] eqn:Ep.
    + eapply valid_step_not_processing; [apply (IH sp eq_refl)| |].
      * eapply Hw; eassumption.
      * eapply Hall; [exact Hle|exact Ep].
    + apply lookup_lt_Some in Hm. apply lookup_ge_None in Ep. lia.
Qed.

(** C5: [_is_valid_status_transition] rejects [processing] as the next
    status from each of pending_ship, shipped, completed, refunding and
    refund_cancelled, and along any walk of statuses each step of which the
    validator accepts, once the status has left [processing] it never
    returns to it. *)
Theorem no_return_to_processing (l : list string) (i j k : nat) (sj : string) :
  valid_walk l ->
  l !! i = Some "processing" -> (i < j)%nat -> l !! j = Some sj -> sj <> "processing" ->
  (j <= k)%nat ->
  Forall (fun c => _is_valid_status_transition c "processing" = false) no_rollback_statuses /\
  l !! k <> Some "processing".
Proof.
  intros Hw Hi Hij Hj Hne Hjk. split.
  - repeat constructor.
  - assert (Hpk : table_key "processing") by (unfold table_key; cbn; discriminate).
    assert (Hall : forall (n : nat) (s : string), (j <= n)%nat -> l !! n = Some s -> table_key s).
    { intros n s Hn Hs. eapply walk_table_key; [exact Hw|exact Hi|exact Hpk| |exact Hs]. lia. }
    intros Hk.
    eapply (walk_not_processing l j k sj "processing"); try eassumption; try reflexivity.
    apply (Hall j sj); [lia|exact Hj].
Qed.

Lemma no_return_to_processing_witness :
  valid_walk ["processing"; "pending_ship"; "shipped"; "refunding"; "completed"] /\
  (Forall (fun c => _is_valid_status_transition c "processing" = false) no_rollback_statuses /\
   ["processing"; "pending_ship"; "shipped"; "refunding"; "completed"] !! 4%nat <> Some "processing").
Proof.
  assert (Hw : valid_walk ["processing"; "pending_ship"; "shipped"; "refunding"; "completed"]).
  { intros n a b Ha Hb.
    destruct n as [|[|[|[|n]]]]; cbn in Ha, Hb;
      try (injection Ha as <-; injection Hb as <-; reflexivity); discriminate. }
  split; [exact Hw|].
  apply (no_return_to_processing _ 0 1 4 "pending_ship"); try exact Hw; try reflexivity; try lia.
  discriminate.
Defined.

(** ** Status updates: direct evaluations *)

Lemma str_in_spec (l : list string) (x : string) : str_in l x = true <-> In x l.
Proof.
  unfold str_in. rewrite existsb_exists. split.
  - intros (y & Hy & Heq). apply String.eqb_eq in Heq. now subst.
  - intros Hx. exists x. split; [exact Hx|apply String.eqb_refl].
Qed.

(** C10: a status outside the seven statuses of [status_mapping] makes
    [update_order_status] return [False] with the state untouched: no
    gateway read or write, no history entry, nothing enqueued. *)
Theorem update_order_status_unknown_status (order_id new_status cookie_id context : string)
  (st : state) :
  ~ In new_status status_mapping ->
  update_order_status order_id new_status cookie_id context st = (false, st).
Proof.
  intros Hn. unfold update_order_status.
  destruct (str_in status_mapping new_status) eqn:E.
  - apply str_in_spec in E. contradiction.
  - reflexivity.
Qed.

Lemma update_order_status_unknown_status_witness :
  ~ In "refund_pending" status_mapping /\
  update_order_status "o1" "refund_pending" "acc" "" refund_scenario_state = (false, refund_scenario_state).
Proof.
  assert (H : ~ In "refund_pending" status_mapping).
  { cbn. intros Hin. repeat (destruct Hin as [Hin|Hin]; [discriminate|]). exact Hin. }
  split; [exact H|]. apply update_order_status_unknown_status. exact H.
Defined.

(** C1 (evaluation at the failing input): for order [o1] persisted as
    [refunding] whose history holds the one entry (pending_ship, refunding),
    the candidate [refund_cancelled] is resolved to the [to_status] of the
    last entry, so [refunding] is written back, not [pending_ship]. *)
Theorem refund_cancelled_writes_last_target :
  let '(r, st') := update_order_status "o1" "refund_cancelled" "acc" "" refund_scenario_state in
  r = true /\
  trace st' = [EvRead "o1"; EvWrite "o1" "refunding" "acc"] /\
  db st' !! "o1" = Some {| order_status := Some "refunding" |}.
Proof. vm_compute. repeat split. Qed.

(** ** Mapping cache: direct evaluations *)

(** C2 (evaluation at the failing input): with 199 mappings for [acc], an
    insert whose payload yields two new identifiers skips the eviction
    (199 < 200) and leaves 201 mappings. *)
Theorem store_mapping_exceeds_bound :
  List.length full_mapping = 199%nat /\
  _extract_chat_identifiers suffixed_sender_message = ["u1@goofish"; "u1"] /\
  let '(_, st') := _store_chat_order_mapping "2000000000" "acc" suffixed_sender_message full_mapping_state in
  option_map List.length (_chat_order_map st' !! "acc") = Some 201%nat.
Proof. vm_compute. repeat split. Qed.

(** C6 (evaluation at the failing input): the lookup meets the expired
    [chatA] first, then returns the order of the fresh [chatB] at once, and
    [chatA] stays in the cache. *)
Theorem lookup_keeps_expired_entry :
  _extract_chat_identifiers two_chat_message = ["chatA"; "chatB"] /\
  let '(r, st') := _lookup_order_id_by_message two_chat_message "acc" expired_then_fresh_state in
  r = Some "2000000000" /\
  option_map (assoc "chatA") (_chat_order_map st' !! "acc")
    = Some (Some {| m_order_id := "1000000000"; m_timestamp := 0 |}) /\
  _chat_order_map_ttl < clock st' - 0.
Proof. vm_compute. repeat split. Qed.

(** C3 (counterexample): the notification [你已发货] for the cancelled
    order [1234567890], found through the chat cache, is classified
    [shipped]; the transition is rejected, nothing is committed or
    deferred, and [handle_system_message] still returns [True]. *)
Lemma handle_system_message_true_without_mutation :
  let '(r, st') := @handle_system_message eval_builtins chat_message "你已发货" "acc" "t"
                     closed_order_state in
  r = true /\
  db st' = db closed_order_state /\
  _order_status_history st' = _order_status_history closed_order_state /\
  pending_updates st' = pending_updates closed_order_state /\
  _pending_system_messages st' = _pending_system_messages closed_order_state.
Proof. vm_compute. repeat split. Qed.

(** ** Gateway retries *)

Lemma retry_loop_gw {A} (ev : event) (k : M A) (s : state) :
  retry_loop (seq 0 max_retries) (gw_op ev k) s =
  if retry_ok (gw_faults s) then let '(a, s') := k (after_retries ev s) in (Some a, s')
  else (None, after_retries ev s).
Proof.
  destruct s as [d f tr clk us h pu ps pr cm].
  unfold after_retries; cbn [gw_faults trace clock uuids].
  destruct f as [|[] [|[] [|[] f]]];
    cbn [retry_loop seq max_retries]; cbv [bind ret gw_op gw_call sleep set_world]; simpl;
    try change (100 * (Z.of_nat 0 + 1)) with 100; try change (100 * (Z.of_nat 1 + 1)) with 200;
    rewrite ?drop_0, ?Z.add_0_r, <- ?Z.add_assoc, <- ?app_assoc; simpl; try change (100 + 200) with 300;
    try (match goal with |- context [k ?x] => destruct (k x) end; simpl);
    reflexivity.
Qed.

Lemma retry_read (o : string) (s : state) :
  retry_loop (seq 0 max_retries) (get_order_by_id o) s =
  if retry_ok (gw_faults s) then (Some (db s !! o), after_retries (EvRead o) s)
  else (None, after_retries (EvRead o) s).
Proof.
  exact (retry_loop_gw (EvRead o) (let! s := get_state in ret (db s !! o)) s).
Qed.

Lemma retry_write (o v c : string) (s : state) :
  retry_loop (seq 0 max_retries) (insert_or_update_order o v c) s =
  if retry_ok (gw_faults s)
  then (Some true, set_db (insert o {| order_status := Some v |}) (after_retries (EvWrite o v c) s))
  else (None, after_retries (EvWrite o v c) s).
Proof.
  exact (retry_loop_gw (EvWrite o v c)
           (let! _ := modify (set_db (insert o {| order_status := Some v |})) in ret true) s).
Qed.

Lemma update_unfold o v c ctx st :
  update_order_status o v c ctx st =
  if negb (str_in status_mapping v) then (false, st) else
  let '(read, s1) := retry_loop (seq 0 max_retries) (get_order_by_id o) st in
  match read with
  | None => (false, s1)
  | Some None => let '(_, s2) := _add_to_pending_updates o v c ctx s1 in (false, s2)
  | Some (Some cur) =>
      let cs := match order_status cur with Some x => x | None => "processing" end in
      if String.eqb cs v then (true, s1)
      else if cfg_strict_validation && negb (_is_valid_status_transition cs v) then (false, s1)
      else
        let v' := if String.eqb v "refund_cancelled" then
                    match fst (_get_previous_status o s1) with
                    | Some p => if String.eqb p "" then cs else p
                    | None => cs end
                  else v in
        let '(w, s2) := retry_loop (seq 0 max_retries) (insert_or_update_order o v' c) s1 in
        match w with
        | Some true => let '(_, s3) := _record_status_history o cs v' ctx s2 in (true, s3)
        | _ => (false, s2)
        end
  end.
Proof.
  unfold update_order_status. destruct (negb _); [reflexivity|].
  cbv [bind ret]. destruct (retry_loop _ _ st) as [[[cur|]|] s1]; try reflexivity.
  destruct (String.eqb _ v); [reflexivity|].
  destruct (cfg_strict_validation && _); [reflexivity|].
  destruct (String.eqb v "refund_cancelled").
  - unfold _get_previous_status; cbv [bind ret get_state].
    destruct (_order_status_history s1 !! o) as [[|e h]|]; cbn [fst].
    + destruct (retry_loop _ _ s1) as [[[]|] s2]; reflexivity.
    + destruct (option_map to_status (last (e :: h))) as [p|].
      * destruct (String.eqb p ""); destruct (retry_loop _ _ s1) as [[[]|] s2]; reflexivity.
      * destruct (retry_loop _ _ s1) as [[[]|] s2]; reflexivity.
    + destruct (retry_loop _ _ s1) as [[[]|] s2]; reflexivity.
  - destruct (retry_loop _ _ s1) as [[[]|] s2]; reflexivity.
Qed.

Lemma retry_count_le f : (retry_count f <= 3)%nat.
Proof. destruct f as [|[] [|[] f]]; cbn; lia. Qed.

Lemma retry_ok_third f : retry_ok f = true -> retry_count f = 3%nat -> f !! 2%nat <> Some true.
Proof. destruct f as [|[] [|[] [|[] f]]]; cbn; congruence. Qed.

Lemma after_retries_trace ev s :
  trace (after_retries ev s) = (trace s ++ attempts ev 0 (retry_count (gw_faults s)))%list.
Proof. reflexivity. Qed.

Lemma after_retries_faults ev s :
  gw_faults (after_retries ev s) = drop (retry_count (gw_faults s)) (gw_faults s).
Proof. reflexivity. Qed.

(** C8: the reads of [update_order_status], then its writes, are each one
    run of at most three attempts, with a sleep of 100 ms, then 200 ms,
    between two attempts (the trace is the read attempts followed by the
    write attempts); when the third write attempt raises, the call returns
    [False]; and whenever it returns [False], neither the history nor the
    stored orders have changed. *)
Theorem update_order_status_retries (o v c ctx : string) (st : state) :
  let '(r, st') := update_order_status o v c ctx st in
  (exists kr kw sw, (kr <= 3)%nat /\ (kw <= 3)%nat /\
     trace st' = (trace st ++ attempts (EvRead o) 0 kr ++ attempts (EvWrite o sw c) 0 kw)%list /\
     (kw = 3%nat -> gw_faults st !! (kr + 2)%nat = Some true -> r = false)) /\
  (r = false -> _order_status_history st' = _order_status_history st /\ db st' = db st).
Proof.
  rewrite update_unfold.
  destruct (str_in status_mapping v); cbn [negb].
  2:{ split; [|auto]. exists 0%nat, 0%nat, v. cbn. rewrite app_nil_r. repeat split; lia. }
  rewrite retry_read.
  set (s1 := after_retries (EvRead o) st).
  assert (Hk := retry_count_le (gw_faults st)).
  destruct (retry_ok (gw_faults st)) eqn:Hok.
  2:{ split; [|auto]. exists (retry_count (gw_faults st)), 0%nat, v.
      cbn [attempts]. rewrite app_nil_r. repeat split; try lia; try reflexivity; try congruence. }
  destruct (db st !! o) as [cur|].
  2:{ unfold _add_to_pending_updates; cbv [bind ret time_time get_state modify].
      split; [|auto]. exists (retry_count (gw_faults st)), 0%nat, v.
      cbn [attempts]. rewrite app_nil_r. repeat split; try lia; try reflexivity; try congruence. }
  cbv zeta.
  set (cs := match order_status cur with Some x => x | None => "processing" end).
  destruct (String.eqb cs v).
  { split; [|discriminate]. exists (retry_count (gw_faults st)), 0%nat, v.
    cbn [attempts]. rewrite app_nil_r. repeat split; try lia; try reflexivity; try congruence. }
  destruct (cfg_strict_validation && negb (_is_valid_status_transition cs v)).
  { split; [|auto]. exists (retry_count (gw_faults st)), 0%nat, v.
    cbn [attempts]. rewrite app_nil_r. repeat split; try lia; try reflexivity; try congruence. }
  match goal with |- context [insert_or_update_order o ?w c] => set (v' := w) end.
  rewrite retry_write.
  assert (Hkw := retry_count_le (gw_faults s1)).
  assert (Hdrop : gw_faults s1 = drop (retry_count (gw_faults st)) (gw_faults st)) by reflexivity.
  destruct (retry_ok (gw_faults s1)) eqn:Hw.
  - unfold _record_status_history; cbv [bind ret time_time get_state modify].
    destruct (negb _);
    (split; [|discriminate];
     exists (retry_count (gw_faults st)), (retry_count (gw_faults s1)), v';
     split; [lia|]; split; [lia|]; split;
     [ cbn; rewrite <- app_assoc; reflexivity
     | intros H3 Hf; exfalso; apply (retry_ok_third _ Hw H3);
       rewrite Hdrop, lookup_drop; exact Hf ]).
  - cbv beta iota zeta. split; [|auto].
    exists (retry_count (gw_faults st)), (retry_count (gw_faults s1)), v'.
    split; [lia|]. split; [lia|]. split; [|auto].
    cbn. rewrite <- app_assoc. reflexivity.
Qed.


Lemma same_status_once (o v c ctx : string) (st : state) (cur : row) :
  In v status_mapping -> db st !! o = Some cur -> order_status cur = Some v ->
  retry_ok (gw_faults st) = true ->
  update_order_status o v c ctx st = (true, after_retries (EvRead o) st).
Proof.
  intros Hin Hdb Hcur Hok. rewrite update_unfold.
  apply str_in_spec in Hin. rewrite Hin. cbn [negb].
  rewrite retry_read, Hok, Hdb. cbv beta iota zeta. rewrite Hcur, String.eqb_refl. reflexivity.
Qed.

(** C4: when the stored status of the order equals the candidate status
    and the read succeeds within its three attempts, [update_order_status]
    returns [True] having only read: storage, history and the pending
    updates are unchanged and no write is attempted; a second delivery of
    the same status (whose read succeeds) is again such a no-op. *)
Theorem same_status_update_noop (o v c ctx : string) (st : state) (cur : row) :
  In v status_mapping -> db st !! o = Some cur -> order_status cur = Some v ->
  retry_ok (gw_faults st) = true ->
  let '(r, st') := update_order_status o v c ctx st in
  r = true /\ db st' = db st /\ _order_status_history st' = _order_status_history st /\
  pending_updates st' = pending_updates st /\
  trace st' = (trace st ++ attempts (EvRead o) 0 (retry_count (gw_faults st)))%list /\
  (retry_ok (gw_faults st') = true ->
   let '(r2, st'') := update_order_status o v c ctx st' in
   r2 = true /\ db st'' = db st /\ _order_status_history st'' = _order_status_history st /\
   pending_updates st'' = pending_updates st).
Proof.
  intros Hin Hdb Hcur Hok. rewrite (same_status_once o v c ctx st cur Hin Hdb Hcur Hok).
  repeat split; try reflexivity.
  intros Hok2. rewrite (same_status_once o v c ctx (after_retries (EvRead o) st) cur Hin Hdb Hcur Hok2).
  repeat split; reflexivity.
Qed.

Lemma same_status_update_noop_witness :
  let '(r, st') := update_order_status "o1" "shipped" "acc" "" shipped_order_state in
  r = true /\ db st' = db shipped_order_state /\
  _order_status_history st' = _order_status_history shipped_order_state /\
  pending_updates st' = pending_updates shipped_order_state /\
  trace st' = (trace shipped_order_state ++
                 attempts (EvRead "o1") 0 (retry_count (gw_faults shipped_order_state)))%list /\
  (retry_ok (gw_faults st') = true ->
   let '(r2, st'') := update_order_status "o1" "shipped" "acc" "" st' in
   r2 = true /\ db st'' = db shipped_order_state /\
   _order_status_history st'' = _order_status_history shipped_order_state /\
   pending_updates st'' = pending_updates shipped_order_state).
Proof.
  apply (same_status_update_noop "o1" "shipped" "acc" "" shipped_order_state
           {| order_status := Some "shipped" |}).
  - cbn. tauto.
  - reflexivity.
  - reflexivity.
  - reflexivity.
Defined.

(** ** System messages *)

(** C3 (amended): when no heuristic classifies the message (or the
    classification raises), [handle_system_message] returns [False] and
    changes nothing; when a status is classified and the payload can be
    hashed, it returns [True], whether the update was committed, rejected,
    a no-op, failed, or deferred. *)
Theorem handle_system_message_outcome {B : PyBuiltins} (message : value)
  (send_message cookie_id msg_time : string) (st : state) :
  ((classify_system_message message send_message = Ok None \/
    exists e, classify_system_message message send_message = Raise e) ->
   handle_system_message message send_message cookie_id msg_time st = (false, st)) /\
  (forall s h, classify_system_message message send_message = Ok (Some s) ->
   message_hash message = Ok h ->
   fst (handle_system_message message send_message cookie_id msg_time st) = true).
Proof.
  split.
  - intros [Hc|[e Hc]]; unfold handle_system_message; rewrite Hc; reflexivity.
  - intros s h Hc Hh. unfold handle_system_message. rewrite Hc, Hh.
    cbv [bind ret time_time get_state modify fresh_uuid cfg_use_pending_queue negb].
    repeat match goal with
           | |- context [match ?m with (_, _) => _ end] => destruct m
           | |- context [match ?m with Some _ => _ | None => _ end] => destruct m
           | |- context [if ?b then _ else _] => destruct b
           end; reflexivity.
Qed.

Lemma handle_system_message_outcome_witness :
  (@classify_system_message eval_builtins VNone "hello" = Ok None /\
   @handle_system_message eval_builtins VNone "hello" "acc" "t" closed_order_state
     = (false, closed_order_state)) /\
  (@classify_system_message eval_builtins chat_message "你已发货" = Ok (Some "shipped") /\
   @message_hash eval_builtins chat_message = Ok chat_message_hash /\
   fst (@handle_system_message eval_builtins chat_message "你已发货" "acc" "t" closed_order_state)
     = true).
Proof.
  assert (Hn : @classify_system_message eval_builtins VNone "hello" = Ok None)
    by (vm_compute; reflexivity).
  assert (Hc : @classify_system_message eval_builtins chat_message "你已发货" = Ok (Some "shipped"))
    by (vm_compute; reflexivity).
  assert (Hh : @message_hash eval_builtins chat_message = Ok chat_message_hash)
    by (vm_compute; reflexivity).
  split.
  - split; [exact Hn|].
    apply (proj1 (@handle_system_message_outcome eval_builtins VNone "hello" "acc" "t"
                    closed_order_state)).
    left. exact Hn.
  - split; [exact Hc|]. split; [exact Hh|].
    exact (proj2 (@handle_system_message_outcome eval_builtins chat_message "你已发货" "acc" "t"
                    closed_order_state) "shipped" chat_message_hash Hc Hh).
Defined.

(** ** Deferred resolution *)

Lemma update_keeps_queues (o v c ctx : string) (s : state) :
  let s' := snd (update_order_status o v c ctx s) in
  _pending_system_messages s' = _pending_system_messages s /\
  _pending_red_reminder_messages s' = _pending_red_reminder_messages s /\
  _chat_order_map s' = _chat_order_map s.
Proof.
  cbv zeta. rewrite update_unfold.
  destruct (negb _); [auto|].
  rewrite retry_read.
  destruct (retry_ok (gw_faults s)); cbv beta iota; [|auto].
  destruct (db s !! o) as [cur|].
  2:{ unfold _add_to_pending_updates; cbv [bind ret time_time get_state modify]. auto. }
  cbv zeta.
  destruct (String.eqb _ v); [auto|].
  destruct (cfg_strict_validation && _); [auto|].
  rewrite retry_write.
  destruct (retry_ok _); cbv beta iota; [|auto].
  unfold _record_status_history; cbv [bind ret time_time get_state modify].
  destruct (negb _); auto.
Qed.

Lemma last_index_where_none {A} (p : A -> bool) (l : list A) :
  last_index_where p l = None -> forall j y, l !! j = Some y -> p y = false.
Proof.
  induction l as [|x l IH]; intros H j y Hy; [discriminate|].
  cbn in H. destruct (last_index_where p l); [discriminate|].
  destruct (p x) eqn:Px; [discriminate|].
  destruct j as [|j]; [injection Hy as <-; exact Px|]. exact (IH eq_refl j y Hy).
Qed.

Lemma last_index_where_some {A} (p : A -> bool) (l : list A) (i : nat) :
  last_index_where p l = Some i ->
  exists x, l !! i = Some x /\ p x = true /\
    forall j y, (i < j)%nat -> l !! j = Some y -> p y = false.
Proof.
  revert i. induction l as [|x l IH]; intros i H; cbn in H; [discriminate|].
  destruct (last_index_where p l) as [i'|] eqn:E.
  - injection H as <-. destruct (IH i' eq_refl) as (y & Hy & Hp & Hlast).
    exists y. split; [exact Hy|]. split; [exact Hp|].
    intros [|j] z Hj Hz; [lia|]. apply (Hlast j z); [lia|exact Hz].
  - destruct (p x) eqn:Px; [|discriminate]. injection H as <-.
    exists x. split; [reflexivity|]. split; [exact Px|].
    intros [|j] z Hj Hz; [lia|]. exact (last_index_where_none p l E j z Hz).
Qed.


Section Resolution.
Context {B : PyBuiltins}.
Variable get_q : state -> gmap string (list pending_msg).
Variable set_q : (gmap string (list pending_msg) -> gmap string (list pending_msg)) -> state -> state.
Hypothesis get_set : forall f s, get_q (set_q f s) = f (get_q s).
Hypothesis get_update : forall o v c x s, get_q (snd (update_order_status o v c x s)) = get_q s.
Hypothesis get_pending : forall f s, get_q (set_pending_updates f s) = get_q s.
Hypothesis pending_set : forall f s, pending_updates (set_q f s) = pending_updates s.

Lemma resolve_pending_spec (ctx : pending_msg -> string) (order_id cookie_id : string)
  (message : value) (hm : option Z) (st : state) (q : list pending_msg) :
  get_q st !! cookie_id = Some q -> q <> [] ->
  match hm with
  | Some h => truthy message = true /\ message_hash message = Ok h
  | None => truthy message = false
  end ->
  exists i pm, q !! i = Some pm /\
    match hm with
    | Some h =>
        (pm_message_hash pm = h /\
         forall j pm', (i < j)%nat -> q !! j = Some pm' -> pm_message_hash pm' <> h) \/
        (i = 0%nat /\ forall j pm', q !! j = Some pm' -> pm_message_hash pm' <> h)
    | None => i = 0%nat
    end /\
    let s1 := set_q (insert cookie_id (delete i q)) st in
    let s2 := snd (update_order_status order_id (pm_new_status pm) cookie_id (ctx pm) s1) in
    let s3 := set_pending_updates (delete (pm_temp_order_id pm)) s2 in
    let s4 := match delete i q with [] => set_q (delete cookie_id) s3 | _ => s3 end in
    resolve_pending get_q set_q ctx order_id cookie_id message st = (Ok tt, s4) /\
    get_q s4 !! cookie_id = match delete i q with [] => None | q' => Some q' end /\
    pending_updates s4 !! pm_temp_order_id pm = None.
Proof.
  intros Hq Hne Hhm.
  assert (Hfinish : forall i pm,
    select_pending hm q = (Some pm, delete i q) ->
    let s1 := set_q (insert cookie_id (delete i q)) st in
    let s2 := snd (update_order_status order_id (pm_new_status pm) cookie_id (ctx pm) s1) in
    let s3 := set_pending_updates (delete (pm_temp_order_id pm)) s2 in
    let s4 := match delete i q with [] => set_q (delete cookie_id) s3 | _ => s3 end in
    resolve_pending get_q set_q ctx order_id cookie_id message st = (Ok tt, s4) /\
    get_q s4 !! cookie_id = match delete i q with [] => None | q' => Some q' end /\
    pending_updates s4 !! pm_temp_order_id pm = None).
  { intros i pm Hsel. cbv zeta.
    assert (Hg2 : get_q (snd (update_order_status order_id (pm_new_status pm) cookie_id (ctx pm)
                    (set_q (insert cookie_id (delete i q)) st)))
                  = insert cookie_id (delete i q) (get_q st)).
    { rewrite get_update, get_set. reflexivity. }
    unfold resolve_pending; cbv [bind ret get_state modify].
    rewrite Hq. destruct q as [|x l]; [contradiction|].
    assert (Hh : (if truthy message then py_bind (message_hash message) (fun h => Ok (Some h))
                  else Ok None) = Ok hm).
    { destruct hm as [h|]; [destruct Hhm as [-> ->]|rewrite Hhm]; reflexivity. }
    rewrite Hh, Hsel.
    destruct (update_order_status order_id (pm_new_status pm) cookie_id (ctx pm)
                (set_q (insert cookie_id (delete i (x :: l))) st)) as [r s2] eqn:Hu.
    cbn [snd] in Hg2 |- *. rewrite get_pending, Hg2, lookup_insert_eq.
    destruct (delete i (x :: l)) as [|y l'] eqn:Hd.
    - split; [reflexivity|]. split.
      + rewrite get_set, get_pending, Hg2. apply lookup_delete_eq.
      + rewrite pending_set. cbn. apply lookup_delete_eq.
    - split; [reflexivity|]. split.
      + rewrite get_pending, Hg2. apply lookup_insert_eq.
      + cbn. apply lookup_delete_eq. }
  destruct q as [|x l]; [contradiction|].
  destruct hm as [h|].
  - destruct (last_index_where (fun m => Z.eqb (pm_message_hash m) h) (x :: l)) as [i|] eqn:E.
    + destruct (last_index_where_some _ _ _ E) as (pm & Hpm & Hp & Hlast).
      exists i, pm. split; [exact Hpm|]. split.
      * left. split; [apply Z.eqb_eq, Hp|].
        intros j pm' Hj Hj'. apply Z.eqb_neq. exact (Hlast j pm' Hj Hj').
      * apply Hfinish. unfold select_pending. rewrite E, Hpm. reflexivity.
    + exists 0%nat, x. split; [reflexivity|]. split.
      * right. split; [reflexivity|].
        intros j pm' Hj. apply Z.eqb_neq. exact (last_index_where_none _ _ E j pm' Hj).
      * apply Hfinish. unfold select_pending. rewrite E. reflexivity.
  - exists 0%nat, x. split; [reflexivity|]. split; [reflexivity|].
    apply Hfinish. reflexivity.
Qed.

End Resolution.

(** C7: [on_order_id_extracted] runs, after storing the chat mapping, one
    block on the queue of deferred system messages and the same block on
    the queue of deferred red reminders.  For a non-empty queue of the
    account, the block picks the newest entry whose [message_hash] equals
    the hash of the given message ([hm]), or the oldest entry when no
    message is given or no hash matches; it removes the entry from the
    queue, passes its buffered status to [update_order_status] under the
    resolved order id, deletes the placeholder id from [pending_updates],
    and drops the account's queue once it is empty. *)
Theorem pending_notification_resolution {B : PyBuiltins}
  (get_q : state -> gmap string (list pending_msg))
  (set_q : (gmap string (list pending_msg) -> gmap string (list pending_msg)) -> state -> state)
  (ctx : pending_msg -> string) (order_id cookie_id : string)
  (message : value) (hm : option Z) (st : state) (q : list pending_msg) :
  (get_q = _pending_system_messages /\ set_q = set_pending_sys /\ ctx = system_context) \/
  (get_q = _pending_red_reminder_messages /\ set_q = set_pending_red /\ ctx = red_context) ->
  get_q st !! cookie_id = Some q -> q <> [] ->
  match hm with
  | Some h => truthy message = true /\ message_hash message = Ok h
  | None => truthy message = false
  end ->
  exists i pm, q !! i = Some pm /\
    match hm with
    | Some h =>
        (pm_message_hash pm = h /\
         forall j pm', (i < j)%nat -> q !! j = Some pm' -> pm_message_hash pm' <> h) \/
        (i = 0%nat /\ forall j pm', q !! j = Some pm' -> pm_message_hash pm' <> h)
    | None => i = 0%nat
    end /\
    let s1 := set_q (insert cookie_id (delete i q)) st in
    let s2 := snd (update_order_status order_id (pm_new_status pm) cookie_id (ctx pm) s1) in
    let s3 := set_pending_updates (delete (pm_temp_order_id pm)) s2 in
    let s4 := match delete i q with [] => set_q (delete cookie_id) s3 | _ => s3 end in
    resolve_pending get_q set_q ctx order_id cookie_id message st = (Ok tt, s4) /\
    get_q s4 !! cookie_id = match delete i q with [] => None | q' => Some q' end /\
    pending_updates s4 !! pm_temp_order_id pm = None.
Proof.
  intros [(-> & -> & ->)|(-> & -> & ->)];
    apply resolve_pending_spec; try reflexivity;
    intros; apply update_keeps_queues.
Qed.

Lemma pending_notification_resolution_witness :
  @_pending_system_messages queued_state !! "acc" = Some queued_list /\
  truthy chat_message = true /\ @message_hash eval_builtins chat_message = Ok chat_message_hash /\
  exists i pm, queued_list !! i = Some pm /\
    match Some chat_message_hash with
    | Some h =>
        (pm_message_hash pm = h /\
         forall j pm', (i < j)%nat -> queued_list !! j = Some pm' -> pm_message_hash pm' <> h) \/
        (i = 0%nat /\ forall j pm', queued_list !! j = Some pm' -> pm_message_hash pm' <> h)
    | None => i = 0%nat
    end /\
    let s1 := set_pending_sys (insert "acc" (delete i queued_list)) queued_state in
    let s2 := snd (update_order_status "1234567890" (pm_new_status pm) "acc" (system_context pm) s1) in
    let s3 := set_pending_updates (delete (pm_temp_order_id pm)) s2 in
    let s4 := match delete i queued_list with [] => set_pending_sys (delete "acc") s3 | _ => s3 end in
    @resolve_pending eval_builtins _pending_system_messages set_pending_sys system_context
      "1234567890" "acc" chat_message queued_state = (Ok tt, s4) /\
    _pending_system_messages s4 !! "acc" = match delete i queued_list with [] => None | q' => Some q' end /\
    pending_updates s4 !! pm_temp_order_id pm = None.
Proof.
  assert (Hh : @message_hash eval_builtins chat_message = Ok chat_message_hash)
    by (vm_compute; reflexivity).
  split; [reflexivity|]. split; [reflexivity|]. split; [exact Hh|].
  apply (@pending_notification_resolution eval_builtins _pending_system_messages set_pending_sys
           system_context "1234567890" "acc" chat_message (Some chat_message_hash)
           queued_state queued_list).
  - left. auto.
  - reflexivity.
  - discriminate.
  - split; [reflexivity|exact Hh].
Defined.

(** ** Order-id extraction *)

Lemma utf8_split1_app (s t : string) (cp : Z) (ch rest : string) :
  utf8_split1 s = Some (cp, ch, rest) -> cp <> -1 -> utf8_split1 (ch ++ t) = Some (cp, ch, t).
Proof.
  intros H Hcp. destruct s as [|a s1]; [discriminate|].
  unfold utf8_split1 in H.
  repeat match type of H with
         | context [if ?b then _ else _] => destruct b eqn:?
         | context [match ?x with EmptyString => _ | String _ _ => _ end] => destruct x
         | context [match cont_bits ?x with Some _ => _ | None => _ end] => destruct (cont_bits x) eqn:?
         end;
  injection H as <- <- <-; try congruence;
  unfold utf8_split1; cbv [String.append];
  repeat match goal with E : ?x = _ |- context [?x] => rewrite E end; reflexivity.
Qed.

Lemma digits_prefix_fuel_digits (f : nat) (s : string) :
  decimal_digits (fst (digits_prefix_fuel f s)) (snd (digits_prefix_fuel f s)).
Proof.
  revert s; induction f as [|f IH]; intros s; cbn [digits_prefix_fuel]; [constructor|].
  destruct (utf8_split1 s) as [[[cp ch] rest]|] eqn:E; [|constructor].
  destruct (is_decimal cp) eqn:D; [|constructor].
  specialize (IH rest). destruct (digits_prefix_fuel f rest) as [d k]. cbn [fst snd] in *.
  apply (dd_cons _ cp ch d); [|exact D|exact IH].
  apply (utf8_split1_app s d cp ch rest E). intros ->. vm_compute in D. discriminate D.
Qed.

Lemma re_search_digits (head : string -> option string) (min : nat) (s d : string) :
  re_search head min s = Some d -> exists n, (min <= n)%nat /\ decimal_digits d n.
Proof.
  induction s as [|c s IH]; intros H; cbn [re_search] in H; cbv zeta in H;
    destruct (head _) as [rest|];
    try (unfold digits_prefix in H;
         pose proof (digits_prefix_fuel_digits (String.length rest) rest) as Hd;
         destruct (digits_prefix_fuel (String.length rest) rest) as [d' k];
         cbn [fst snd] in Hd; cbn beta iota in H;
         destruct (Nat.leb min k) eqn:L; cbn beta iota in H);
    try discriminate; try (apply IH; exact H);
    try (injection H as <-; exists k; split; [apply Nat.leb_le, L|exact Hd]).
Qed.

Lemma re_search_digit_id head min s d :
  (1 <= min)%nat -> re_search head min s = Some d -> digit_id d.
Proof.
  intros Hm H. destruct (re_search_digits _ _ _ _ H) as (n & Hn & Hd).
  exists n. split; [lia|exact Hd].
Qed.

Lemma py_re_search_digit_id head min v d :
  (1 <= min)%nat -> py_re_search head min v = Ok (Some d) -> digit_id d.
Proof.
  intros Hm H. destruct v; cbn in H; try discriminate.
  injection H as H. exact (re_search_digit_id _ _ _ _ Hm H).
Qed.

Ltac py_cases H :=
  repeat match type of H with
         | context [py_bind ?r _] => destruct r eqn:?; cbn [py_bind] in H
         | context [if ?b then _ else _] => destruct b eqn:?
         | context [match ?o with Some _ => _ | None => _ end] => destruct o eqn:?
         end.

Lemma extract_method1_digit_id {B : PyBuiltins} c d :
  extract_method1 c = Ok (Some d) -> digit_id d.
Proof.
  unfold extract_method1. intros H. py_cases H; try discriminate.
  all: repeat match goal with H : context [if ?b then _ else _] |- _ => destruct b; try discriminate end.
  all: repeat match goal with H : Ok _ = Ok _ |- _ => injection H as H end; subst;
    match goal with E : py_re_search _ _ _ = Ok (Some _) |- _ =>
      eapply py_re_search_digit_id; [|exact E]; lia end.
Qed.

Lemma extract_method2_digit_id {B : PyBuiltins} c d :
  extract_method2 c = Ok (Some d) -> digit_id d.
Proof.
  unfold extract_method2. intros H. py_cases H; try discriminate.
  all: repeat match goal with H : context [if ?b then _ else _] |- _ => destruct b; try discriminate end.
  all: repeat match goal with H : Ok _ = Ok _ |- _ => injection H as H end; subst;
    match goal with E : py_re_search _ _ _ = Ok (Some _) |- _ =>
      eapply py_re_search_digit_id; [|exact E]; lia end.
Qed.

Lemma first_pattern_match_in ps s d :
  first_pattern_match ps s = Some d -> exists h m, In (h, m) ps /\ re_search h m s = Some d.
Proof.
  induction ps as [|[h m] ps IH]; cbn; [discriminate|].
  destruct (re_search h m s) eqn:E.
  - intros [= <-]. exists h, m. auto.
  - intros H. destruct (IH H) as (h' & m' & Hin & Hr). exists h', m'. auto.
Qed.

Lemma first_pattern_match_scan s d :
  first_pattern_match scan_patterns s = Some d ->
  digit_id d /\ exists n, (10 <= n)%nat /\ decimal_digits d n.
Proof.
  intros H. destruct (first_pattern_match_in _ _ _ H) as (h & m & Hin & Hr).
  assert (Hm : m = 10%nat).
  { cbn in Hin. repeat (destruct Hin as [Hin|Hin]; [congruence|]). contradiction. }
  subst m. split; [eapply re_search_digit_id; [|exact Hr]; lia|exact (re_search_digits _ _ _ _ Hr)].
Qed.

(** C9: [extract_order_id] returns a value ([Ok]) on every payload; an id
    it returns is a non-empty string of (Unicode) decimal digits found
    either by methods 1 or 2 in a non-empty [content_json_str], or by the
    textual scan of [str(message)], whose first matching pattern yields at
    least ten digits.  So when none of the methods matches, it returns
    [None]. *)
Theorem extract_order_id_never_raises {B : PyBuiltins} (message : value) :
  (exists r, extract_order_id message = Ok r) /\
  forall d, extract_order_id message = Ok (Some d) ->
    digit_id d /\
    ((exists c, content_json_str_of message = Ok c /\ truthy c = true /\
       (extract_method1 c = Ok (Some d) \/ extract_method2 c = Ok (Some d))) \/
     (exists s, py_str message = Ok s /\ first_pattern_match scan_patterns s = Some d /\
       exists n, (10 <= n)%nat /\ decimal_digits d n)).
Proof.
  split.
  { unfold extract_order_id. destruct (extract_order_id_body message); eauto. }
  intros d. unfold extract_order_id.
  destruct (extract_order_id_body message) as [r|e] eqn:Eb; [|discriminate].
  intros [= ->]. unfold extract_order_id_body in Eb.
  destruct (py_str message) as [s|e] eqn:Es; cbn [py_bind] in Eb; [|discriminate].
  destruct (content_json_str_of message) as [c|e] eqn:Ec; cbn [py_bind] in Eb; [|discriminate].
  injection Eb as Eb.
  destruct (truthy c) eqn:Tc; cbv beta iota zeta in Eb.
  - destruct (absorb (extract_method1 c)) as [d1|] eqn:A1; cbv beta iota in Eb.
    + injection Eb as <-. unfold absorb in A1. destruct (extract_method1 c) eqn:M1; [subst|discriminate].
      split; [exact (extract_method1_digit_id _ _ M1)|]. left. eauto.
    + destruct (absorb (extract_method2 c)) as [d2|] eqn:A2; cbv beta iota in Eb.
      * injection Eb as <-. unfold absorb in A2. destruct (extract_method2 c) eqn:M2; [subst|discriminate].
        split; [exact (extract_method2_digit_id _ _ M2)|]. left. eauto.
      * unfold absorb, extract_method3 in Eb. rewrite Es in Eb. cbn in Eb.
        destruct (first_pattern_match_scan _ _ Eb) as [Hd Hl].
        split; [exact Hd|]. right. eauto.
  - unfold absorb, extract_method3 in Eb. rewrite Es in Eb. cbn in Eb.
    destruct (first_pattern_match_scan _ _ Eb) as [Hd Hl].
    split; [exact Hd|]. right. eauto.
Qed.

Lemma extract_order_id_never_raises_witness :
  @extract_order_id eval_builtins fullwidth_order_text_message = Ok (Some "１２３４５６７８９０") /\
  digit_id "１２３４５６７８９０" /\
  ((exists c, content_json_str_of fullwidth_order_text_message = Ok c /\ truthy c = true /\
     (@extract_method1 eval_builtins c = Ok (Some "１２３４５６７８９０") \/
      @extract_method2 eval_builtins c = Ok (Some "１２３４５６７８９０"))) \/
   (exists s, @py_str eval_builtins fullwidth_order_text_message = Ok s /\
     first_pattern_match scan_patterns s = Some "１２３４５６７８９０" /\
     exists n, (10 <= n)%nat /\ decimal_digits "１２３４５６７８９０" n)).
Proof.
  assert (E : @extract_order_id eval_builtins fullwidth_order_text_message
              = Ok (Some "１２３４５６７８９０"))
    by (vm_compute; reflexivity).
  split; [exact E|].
  exact (proj2 (@extract_order_id_never_raises eval_builtins fullwidth_order_text_message) _ E).
Defined.

(** ** Further properties *)


(** X1: for a status listed in [VALID_TRANSITIONS],
    [_is_valid_status_transition] accepts exactly the statuses that
    [_get_allowed_transitions] lists; for an unlisted status every
    transition is accepted and the list is the placeholder [所有状态]. *)
Theorem allowed_transitions_match (current_status new_status : string) :
  (assoc current_status VALID_TRANSITIONS <> None ->
   (_is_valid_status_transition current_status new_status = true <->
    In new_status (_get_allowed_transitions current_status))) /\
  (assoc current_status VALID_TRANSITIONS = None ->
   _is_valid_status_transition current_status new_status = true /\
   _get_allowed_transitions current_status = ["所有状态"]).
Proof.
  unfold _get_allowed_transitions, _is_valid_status_transition.
  destruct (assoc current_status VALID_TRANSITIONS) as [l|] eqn:E.
  - split; [|discriminate]. intros _. rewrite <- str_in_spec.
    destruct (String.eqb_spec new_status "processing") as [->|Hne]; cbn [andb].
    + assert (Hl : str_in l "processing" = false).
      { cbn in E. eqb_cases E; try discriminate; injection E as <-; reflexivity. }
      rewrite Hl. destruct (str_in no_rollback_statuses current_status); tauto.
    + reflexivity.
  - split; [intros H; now exfalso|]. auto.
Qed.

Lemma allowed_transitions_match_witness :
  (_is_valid_status_transition "shipped" "refunding" = true <->
   In "refunding" (_get_allowed_transitions "shipped")) /\
  _is_valid_status_transition "unknown" "processing" = true /\
  _get_allowed_transitions "unknown" = ["所有状态"].
Proof.
  split.
  - apply (proj1 (allowed_transitions_match "shipped" "refunding")). vm_compute. discriminate.
  - apply (proj2 (allowed_transitions_match "unknown" "processing")). vm_compute. reflexivity.
Defined.

(** ** Chat/order mapping cache *)

Lemma assoc_set_map {A} (k k' : string) (v : A) (d : list (string * A)) :
  assoc k' (map (fun p => if String.eqb (fst p) k then (k, v) else p) d) =
  if String.eqb k' k then (if existsb (fun p => String.eqb (fst p) k) d then Some v else None)
  else assoc k' d.
Proof.
  induction d as [|[k0 v0] d IH]; cbn [map assoc existsb fst].
  - destruct (String.eqb k' k); reflexivity.
  - destruct (String.eqb_spec k0 k) as [->|Hne]; cbn [assoc orb].
    + rewrite IH. destruct (String.eqb k' k); reflexivity.
    + rewrite IH. destruct (String.eqb_spec k' k) as [->|Hne'].
      * destruct (String.eqb_spec k k0); [congruence|]. reflexivity.
      * reflexivity.
Qed.

Lemma assoc_app_absent {A} (k k' : string) (v : A) (d : list (string * A)) :
  existsb (fun p => String.eqb (fst p) k) d = false ->
  assoc k' (d ++ [(k, v)])%list = if String.eqb k' k then Some v else assoc k' d.
Proof.
  induction d as [|[k0 v0] d IH]; cbn [app assoc existsb fst]; intros H.
  - reflexivity.
  - apply orb_false_iff in H as [H0 H]. rewrite IH by exact H.
    destruct (String.eqb_spec k' k0) as [->|]; [|reflexivity].
    rewrite H0. reflexivity.
Qed.

Lemma assoc_dict_set {A} (k k' : string) (v : A) (d : list (string * A)) :
  assoc k' (dict_set k v d) = if String.eqb k' k then Some v else assoc k' d.
Proof.
  unfold dict_set. destruct (existsb _ d) eqn:E.
  - rewrite assoc_set_map, E. reflexivity.
  - apply assoc_app_absent, E.
Qed.

Lemma assoc_set_all {A} (ids : list string) (e : A) (m : list (string * A)) (i : string) :
  assoc i (fold_left (fun m x => dict_set x e m) ids m) =
  if str_in ids i then Some e else assoc i m.
Proof.
  revert m. induction ids as [|x ids IH]; intros m; cbn [fold_left]; [reflexivity|].
  rewrite IH, assoc_dict_set. unfold str_in; cbn [existsb].
  destruct (String.eqb i x), (existsb (String.eqb i) ids); reflexivity.
Qed.

Lemma in_dict_set {A} (k : string) (v : A) (d : list (string * A)) p :
  In p (dict_set k v d) -> p = (k, v) \/ In p d.
Proof.
  unfold dict_set. destruct (existsb _ d).
  - intros (q & <- & Hq)%in_map_iff. destruct (String.eqb (fst q) k); auto.
  - intros [Hp|[<-|[]]]%in_app_iff; auto.
Qed.

Lemma in_set_all {A} (ids : list string) (e : A) (m : list (string * A)) p :
  In p (fold_left (fun m x => dict_set x e m) ids m) -> snd p = e \/ In p m.
Proof.
  revert m. induction ids as [|x ids IH]; intros m; cbn [fold_left]; [auto|].
  intros [He|Hp]%IH; [auto|]. apply in_dict_set in Hp as [->|Hp]; auto.
Qed.

Lemma in_dict_pop {A} (k : string) (d : list (string * A)) p :
  In p (dict_pop k d) -> In p d /\ fst p <> k.
Proof.
  unfold dict_pop. rewrite <- !list_elem_of_In, list_elem_of_filter.
  intros [Hk Hp]. split; [exact Hp|]. intros Heq. subst k.
  rewrite String.eqb_refl in Hk. exact Hk.
Qed.

Lemma in_pop_all {A} (ks : list string) (d : list (string * A)) p :
  In p (fold_left (fun m k => dict_pop k m) ks d) -> In p d /\ ~ In (fst p) ks.
Proof.
  revert d. induction ks as [|k ks IH]; intros d; cbn [fold_left]; [tauto|].
  intros [Hp Hn]%IH. apply in_dict_pop in Hp as [Hp Hk]. split; [exact Hp|].
  intros [->|H]; auto.
Qed.

Lemma in_pop_items {A} (ks : list (string * A)) (d : list (string * A)) p :
  In p (fold_left (fun m q => dict_pop (fst q) m) ks d) -> In p d.
Proof.
  revert d. induction ks as [|k ks IH]; intros d; cbn [fold_left]; [tauto|].
  intros Hp%IH. apply in_dict_pop in Hp. tauto.
Qed.

Lemma store_mapping_assoc (now : Z) (order_id : string) (identifiers : list string)
  (mapping : list (string * map_entry)) (i : string) :
  In i identifiers ->
  assoc i (store_mapping now order_id identifiers mapping)
  = Some {| m_order_id := order_id; m_timestamp := now |}.
Proof.
  intros Hi. unfold store_mapping. rewrite assoc_set_all.
  apply str_in_spec in Hi. rewrite Hi. reflexivity.
Qed.

Lemma store_mapping_fresh (now : Z) (order_id : string) (identifiers : list string)
  (mapping : list (string * map_entry)) p :
  In p (store_mapping now order_id identifiers mapping) ->
  now - m_timestamp (snd p) <= _chat_order_map_ttl.
Proof.
  unfold store_mapping. intros [He|Hp]%in_set_all.
  - rewrite He. cbn. unfold _chat_order_map_ttl. lia.
  - assert (Hp' : In p (fold_left (fun m k => dict_pop k m)
                          (map fst (filter (fun p => Z.ltb _chat_order_map_ttl (now - m_timestamp (snd p))) mapping))
                          mapping)).
    { destruct (_chat_order_map_max_size <=? _)%nat; [|exact Hp].
      destruct (0 <? _)%nat; [|exact Hp]. eapply in_pop_items; exact Hp. }
    apply in_pop_all in Hp' as [Hin Hnot].
    destruct (Z.ltb_spec _chat_order_map_ttl (now - m_timestamp (snd p))) as [Hlt|]; [|lia].
    exfalso. apply Hnot. apply in_map. apply list_elem_of_In, list_elem_of_filter.
    split; [|apply list_elem_of_In; exact Hin].
    apply Z.ltb_lt in Hlt. rewrite Hlt. exact I.
Qed.

Lemma store_chat_mapping_spec (order_id cookie_id : string) (message : value) (s : state) :
  order_id <> "" -> cookie_id <> "" -> is_dict message = true ->
  _extract_chat_identifiers message <> [] ->
  let mapping := store_mapping (clock s) order_id (_extract_chat_identifiers message)
                   (match _chat_order_map s !! cookie_id with Some m => m | None => [] end) in
  mapping <> [] /\
  _store_chat_order_mapping order_id cookie_id message s
  = (tt, set_chat_map (insert cookie_id mapping) s).
Proof.
  intros Ho Hc Hm Hids. cbv zeta.
  destruct (_extract_chat_identifiers message) as [|i0 rest] eqn:Eids; [contradiction|].
  assert (Hi0 := store_mapping_assoc (clock s) order_id (i0 :: rest)
                   (match _chat_order_map s !! cookie_id with Some m => m | None => [] end) i0
                   (or_introl eq_refl)).
  unfold _store_chat_order_mapping.
  apply String.eqb_neq in Ho, Hc. rewrite Ho, Hc, Hm, Eids. cbn [orb negb].
  cbv [bind ret time_time get_state modify].
  destruct (store_mapping _ _ _ _) as [|p l]; [discriminate|].
  split; [discriminate|reflexivity].
Qed.

(** X2: after [_store_chat_order_mapping] stores an order id for a dict
    payload with at least one chat identifier, [_lookup_order_id_by_message]
    on the same payload and account returns that order id and changes
    nothing. *)
Theorem store_then_lookup (order_id cookie_id : string) (message : value) (s : state) :
  order_id <> "" -> cookie_id <> "" -> is_dict message = true ->
  _extract_chat_identifiers message <> [] ->
  let s1 := snd (_store_chat_order_mapping order_id cookie_id message s) in
  _lookup_order_id_by_message message cookie_id s1 = (Some order_id, s1).
Proof.
  intros Ho Hc Hm Hids.
  destruct (store_chat_mapping_spec order_id cookie_id message s Ho Hc Hm Hids) as [Hne ->].
  cbv zeta. cbn [snd].
  set (mapping := store_mapping _ _ _ _) in *.
  unfold _lookup_order_id_by_message.
  assert (Hc' := Hc). apply String.eqb_neq in Hc'. rewrite Hc', Hm. cbn [orb negb].
  destruct (_extract_chat_identifiers message) as [|i0 rest] eqn:Eids; [contradiction|].
  assert (Hi0 : assoc i0 mapping = Some {| m_order_id := order_id; m_timestamp := clock s |}).
  { unfold mapping. try rewrite Eids. apply store_mapping_assoc. left. reflexivity. }
  cbv [bind ret time_time get_state]. cbn [_chat_order_map clock set_chat_map].
  rewrite lookup_insert_eq.
  clearbody mapping. destruct mapping as [|p l]; [contradiction|].
  cbn [lookup_scan]. rewrite Hi0. cbn [m_timestamp m_order_id].
  rewrite Z.sub_diag. cbn. apply String.eqb_neq in Ho. rewrite Ho. reflexivity.
Qed.

Lemma store_then_lookup_witness :
  "1234567890" <> "" /\ "acc" <> "" /\ is_dict chat_message = true /\
  _extract_chat_identifiers chat_message <> [] /\
  let s1 := snd (_store_chat_order_mapping "1234567890" "acc" chat_message shipped_order_state) in
  _lookup_order_id_by_message chat_message "acc" s1 = (Some "1234567890", s1).
Proof.
  assert (H1 : "1234567890" <> "") by discriminate.
  assert (H2 : "acc" <> "") by discriminate.
  assert (H3 : is_dict chat_message = true) by reflexivity.
  assert (H4 : _extract_chat_identifiers chat_message <> []) by (vm_compute; discriminate).
  split; [exact H1|]. split; [exact H2|]. split; [exact H3|]. split; [exact H4|].
  exact (store_then_lookup "1234567890" "acc" chat_message shipped_order_state H1 H2 H3 H4).
Defined.

(** X3: after [_store_chat_order_mapping], the account's mapping maps every
    chat identifier of the payload to the order id with the current time,
    and holds no entry older than the TTL. *)
Theorem store_leaves_no_expired_entry (order_id cookie_id : string) (message : value) (s : state) :
  order_id <> "" -> cookie_id <> "" -> is_dict message = true ->
  _extract_chat_identifiers message <> [] ->
  let s1 := snd (_store_chat_order_mapping order_id cookie_id message s) in
  exists mapping, _chat_order_map s1 !! cookie_id = Some mapping /\
    (forall i, In i (_extract_chat_identifiers message) ->
       assoc i mapping = Some {| m_order_id := order_id; m_timestamp := clock s |}) /\
    Forall (fun p => clock s1 - m_timestamp (snd p) <= _chat_order_map_ttl) mapping.
Proof.
  intros Ho Hc Hm Hids.
  destruct (store_chat_mapping_spec order_id cookie_id message s Ho Hc Hm Hids) as [Hne ->].
  cbv zeta. cbn [snd _chat_order_map set_chat_map clock].
  eexists. split; [apply lookup_insert_eq|]. split.
  - intros i Hi. apply store_mapping_assoc, Hi.
  - apply List.Forall_forall. intros p Hp. eapply store_mapping_fresh. exact Hp.
Qed.

Lemma store_leaves_no_expired_entry_witness :
  "1234567890" <> "" /\ "acc" <> "" /\ is_dict chat_message = true /\
  _extract_chat_identifiers chat_message <> [] /\
  let s1 := snd (_store_chat_order_mapping "1234567890" "acc" chat_message expired_then_fresh_state) in
  exists mapping, _chat_order_map s1 !! "acc" = Some mapping /\
    (forall i, In i (_extract_chat_identifiers chat_message) ->
       assoc i mapping = Some {| m_order_id := "1234567890"; m_timestamp := clock expired_then_fresh_state |}) /\
    Forall (fun p => clock s1 - m_timestamp (snd p) <= _chat_order_map_ttl) mapping.
Proof.
  assert (H1 : "1234567890" <> "") by discriminate.
  assert (H2 : "acc" <> "") by discriminate.
  assert (H3 : is_dict chat_message = true) by reflexivity.
  assert (H4 : _extract_chat_identifiers chat_message <> []) by (vm_compute; discriminate).
  split; [exact H1|]. split; [exact H2|]. split; [exact H3|]. split; [exact H4|].
  exact (store_leaves_no_expired_entry "1234567890" "acc" chat_message expired_then_fresh_state H1 H2 H3 H4).
Defined.

(** ** Status updates *)

Lemma last_trim {A} (l : list A) (x : A) :
  last (if Nat.ltb 10 (List.length (l ++ [x])) then last_n 10 (l ++ [x]) else l ++ [x])%list
  = Some x.
Proof.
  destruct (Nat.ltb 10 _); [|apply last_snoc].
  unfold last_n. rewrite drop_app_le; [apply last_snoc|].
  rewrite length_app. cbn. lia.
Qed.

Lemma record_history_ok (order_id from to context : string) (s : state) :
  history_ok (_order_status_history s) ->
  history_ok (_order_status_history (snd (_record_status_history order_id from to context s))).
Proof.
  intros H. unfold _record_status_history; cbv [bind ret time_time get_state modify]; cbn [snd].
  set (hist := match _order_status_history s !! order_id with Some h => h | None => [] end).
  assert (Hh : (List.length hist <= 10)%nat /\
               Forall (fun e => to_status e <> "refund_cancelled") hist).
  { unfold hist. destruct (_order_status_history s !! order_id) eqn:E.
    - exact (H _ _ E).
    - split; [cbn; lia|constructor]. }
  destruct (String.eqb to "refund_cancelled") eqn:Et; cbn [negb];
    intros k l; cbn [snd _order_status_history set_history];
    (intros Hk; apply lookup_insert_Some in Hk as [[<- <-]|[_ Hk]]; [|exact (H k l Hk)]).
  - exact Hh.
  - assert (Ht : to <> "refund_cancelled").
    { intros ->. discriminate Et. }
    assert (Hf : Forall (fun e => to_status e <> "refund_cancelled")
                   (hist ++ [{| from_status := from; to_status := to;
                                h_context := context; h_timestamp := clock s |}])%list).
    { apply Forall_app. split; [apply Hh|]. constructor; [exact Ht|constructor]. }
    destruct (Nat.ltb_spec 10 (List.length (hist ++ [{| from_status := from; to_status := to;
                                h_context := context; h_timestamp := clock s |}])%list)) as [Hlt|Hge].
    + unfold last_n. split; [rewrite length_drop; lia|]. apply Forall_drop, Hf.
    + split; [lia|exact Hf].
Qed.

(** X4: [update_order_status] keeps every order's history at most 10
    entries long and free of [refund_cancelled] targets. *)
Theorem update_keeps_history_bounded (order_id new_status cookie_id context : string) (s : state) :
  history_ok (_order_status_history s) ->
  history_ok (_order_status_history (snd (update_order_status order_id new_status cookie_id context s))).
Proof.
  intros H. rewrite update_unfold.
  destruct (negb _); [exact H|].
  rewrite retry_read.
  destruct (retry_ok (gw_faults s)); cbv beta iota; [|exact H].
  destruct (db s !! order_id) as [cur|].
  2:{ unfold _add_to_pending_updates; cbv [bind ret time_time get_state modify]. exact H. }
  cbv zeta.
  destruct (String.eqb _ new_status); [exact H|].
  destruct (cfg_strict_validation && _); [exact H|].
  rewrite retry_write.
  destruct (retry_ok _); cbv beta iota; [|exact H].
  match goal with |- context [_record_status_history ?a ?b ?c ?d ?s2] =>
    pose proof (record_history_ok a b c d s2 H) as Hr; destruct (_record_status_history a b c d s2) end.
  exact Hr.
Qed.

Lemma update_keeps_history_bounded_witness :
  history_ok (_order_status_history refund_scenario_state) /\
  history_ok (_order_status_history
    (snd (update_order_status "o1" "completed" "acc" "" refund_scenario_state))).
Proof.
  assert (H : history_ok (_order_status_history refund_scenario_state)).
  { intros k l Hk. cbn in Hk. apply lookup_singleton_Some in Hk as [<- <-].
    split; [cbn; lia|]. constructor; [cbn; discriminate|constructor]. }
  split; [exact H|]. exact (update_keeps_history_bounded "o1" "completed" "acc" "" _ H).
Defined.

(** X5: an update of a stored order to a different known status (not
    [refund_cancelled]) that the transition table allows, with the gateway
    read and write succeeding within their retries, returns [true], stores
    the new status and ends the order's history with
    (current, new, context, time). *)
Theorem update_commits (order_id new_status cookie_id context : string) (s : state)
  (cur : row) (current_status : string) :
  In new_status status_mapping -> new_status <> "refund_cancelled" ->
  db s !! order_id = Some cur -> order_status cur = Some current_status ->
  current_status <> new_status ->
  _is_valid_status_transition current_status new_status = true ->
  retry_ok (gw_faults s) = true ->
  retry_ok (gw_faults (after_retries (EvRead order_id) s)) = true ->
  let '(r, s') := update_order_status order_id new_status cookie_id context s in
  r = true /\ db s' = <[order_id := {| order_status := Some new_status |}]> (db s) /\
  exists entries, _order_status_history s' !! order_id = Some entries /\
    last entries = Some {| from_status := current_status; to_status := new_status;
                           h_context := context; h_timestamp := clock s' |}.
Proof.
  intros Hin Hnr Hdb Hcur Hne Hval Hok1 Hok2.
  rewrite update_unfold. apply str_in_spec in Hin. rewrite Hin. cbn [negb].
  rewrite retry_read, Hok1, Hdb. cbv beta iota zeta. rewrite Hcur.
  apply String.eqb_neq in Hne, Hnr. rewrite Hne, Hval, Hnr. cbn [cfg_strict_validation negb andb].
  rewrite retry_write, Hok2. cbv beta iota.
  unfold _record_status_history; cbv [bind ret time_time get_state modify].
  rewrite Hnr. cbn [negb]. split; [reflexivity|]. split; [reflexivity|].
  eexists. split; [cbn [_order_status_history set_history]; apply lookup_insert_eq|].
  apply last_trim.
Qed.

Lemma update_commits_witness :
  In "completed" status_mapping /\ "completed" <> "refund_cancelled" /\
  db shipped_order_state !! "o1" = Some {| order_status := Some "shipped" |} /\
  order_status {| order_status := Some "shipped" |} = Some "shipped" /\
  "shipped" <> "completed" /\
  _is_valid_status_transition "shipped" "completed" = true /\
  retry_ok (gw_faults shipped_order_state) = true /\
  retry_ok (gw_faults (after_retries (EvRead "o1") shipped_order_state)) = true /\
  let '(r, s') := update_order_status "o1" "completed" "acc" "ctx" shipped_order_state in
  r = true /\ db s' = <["o1" := {| order_status := Some "completed" |}]> (db shipped_order_state) /\
  exists entries, _order_status_history s' !! "o1" = Some entries /\
    last entries = Some {| from_status := "shipped"; to_status := "completed";
                           h_context := "ctx"; h_timestamp := clock s' |}.
Proof.
  assert (H1 : In "completed" status_mapping) by (cbn; tauto).
  assert (H2 : "completed" <> "refund_cancelled") by discriminate.
  assert (H3 : db shipped_order_state !! "o1" = Some {| order_status := Some "shipped" |})
    by reflexivity.
  assert (H4 : order_status {| order_status := Some "shipped" |} = Some "shipped") by reflexivity.
  assert (H5 : "shipped" <> "completed") by discriminate.
  assert (H6 : _is_valid_status_transition "shipped" "completed" = true) by reflexivity.
  assert (H7 : retry_ok (gw_faults shipped_order_state) = true) by reflexivity.
  assert (H8 : retry_ok (gw_faults (after_retries (EvRead "o1") shipped_order_state)) = true)
    by reflexivity.
  do 8 (split; [assumption|]).
  exact (update_commits "o1" "completed" "acc" "ctx" shipped_order_state _ "shipped"
           H1 H2 H3 H4 H5 H6 H7 H8).
Defined.

(** X6: [handle_order_basic_info_status] on a stored order whose status is
    unset or known changes neither the stored orders, the history nor the
    pending queue; it returns [true] only if the status is unset or
    already [processing]. *)
Theorem basic_info_never_overrides_known_status (order_id cookie_id context : string)
  (s : state) (cur : row) :
  db s !! order_id = Some cur ->
  (forall x, order_status cur = Some x -> In x status_mapping) ->
  let '(r, s') := handle_order_basic_info_status order_id cookie_id context s in
  db s' = db s /\ _order_status_history s' = _order_status_history s /\
  pending_updates s' = pending_updates s /\
  (r = true -> order_status cur = None \/ order_status cur = Some "processing").
Proof.
  intros Hdb Hk. unfold handle_order_basic_info_status. rewrite update_unfold.
  cbn [str_in status_mapping existsb String.eqb negb].
  rewrite retry_read. destruct (retry_ok (gw_faults s)); cbv beta iota.
  2:{ repeat split; discriminate. }
  rewrite Hdb. cbv zeta.
  destruct (order_status cur) as [x|] eqn:Ex.
  - specialize (Hk x eq_refl). cbn in Hk.
    repeat (destruct Hk as [<-|Hk]; [cbn; repeat split; try discriminate; auto|]).
    contradiction.
  - cbn. repeat split. auto.
Qed.

Lemma basic_info_never_overrides_known_status_witness :
  db shipped_order_state !! "o1" = Some {| order_status := Some "shipped" |} /\
  (forall x, order_status {| order_status := Some "shipped" |} = Some x -> In x status_mapping) /\
  let '(r, s') := handle_order_basic_info_status "o1" "acc" "基本信息保存" shipped_order_state in
  db s' = db shipped_order_state /\
  _order_status_history s' = _order_status_history shipped_order_state /\
  pending_updates s' = pending_updates shipped_order_state /\
  (r = true -> order_status {| order_status := Some "shipped" |} = None \/
               order_status {| order_status := Some "shipped" |} = Some "processing").
Proof.
  assert (H1 : db shipped_order_state !! "o1" = Some {| order_status := Some "shipped" |})
    by reflexivity.
  assert (H2 : forall x, order_status {| order_status := Some "shipped" |} = Some x ->
                         In x status_mapping).
  { intros x Hx. injection Hx as <-. cbn. tauto. }
  split; [exact H1|]. split; [exact H2|].
  exact (basic_info_never_overrides_known_status "o1" "acc" "基本信息保存" shipped_order_state _ H1 H2).
Defined.

(** X7: [handle_auto_delivery_order_status] on a stored order that is
    completed, refunding, refund_cancelled or cancelled returns [false] and
    changes neither the stored orders, the history nor the pending queue. *)
Theorem auto_delivery_rejected_after_completion (order_id cookie_id context : string)
  (s : state) (cur : row) (x : string) :
  db s !! order_id = Some cur -> order_status cur = Some x ->
  In x ["completed"; "refunding"; "refund_cancelled"; "cancelled"] ->
  let '(r, s') := handle_auto_delivery_order_status order_id cookie_id context s in
  r = false /\ db s' = db s /\ _order_status_history s' = _order_status_history s /\
  pending_updates s' = pending_updates s.
Proof.
  intros Hdb Hx Hin. unfold handle_auto_delivery_order_status. rewrite update_unfold.
  cbn [str_in status_mapping existsb String.eqb negb orb].
  rewrite retry_read. destruct (retry_ok (gw_faults s)); cbv beta iota.
  2:{ repeat split. }
  rewrite Hdb. cbv zeta. rewrite Hx. cbn in Hin.
  repeat (destruct Hin as [<-|Hin]; [cbn; repeat split|]).
  contradiction.
Qed.

Lemma auto_delivery_rejected_after_completion_witness :
  db closed_order_state !! "1234567890" = Some {| order_status := Some "cancelled" |} /\
  order_status {| order_status := Some "cancelled" |} = Some "cancelled" /\
  In "cancelled" ["completed"; "refunding"; "refund_cancelled"; "cancelled"] /\
  let '(r, s') := handle_auto_delivery_order_status "1234567890" "acc" "自动发货" closed_order_state in
  r = false /\ db s' = db closed_order_state /\
  _order_status_history s' = _order_status_history closed_order_state /\
  pending_updates s' = pending_updates closed_order_state.
Proof.
  assert (H1 : db closed_order_state !! "1234567890" = Some {| order_status := Some "cancelled" |})
    by reflexivity.
  assert (H2 : order_status {| order_status := Some "cancelled" |} = Some "cancelled") by reflexivity.
  assert (H3 : In "cancelled" ["completed"; "refunding"; "refund_cancelled"; "cancelled"])
    by (cbn; tauto).
  split; [exact H1|]. split; [exact H2|]. split; [exact H3|].
  exact (auto_delivery_rejected_after_completion "1234567890" "acc" "自动发货" closed_order_state
           _ "cancelled" H1 H2 H3).
Defined.

(** ** Pending-update replay *)

Lemma append_queue_app o q1 q2 p :
  append_queue o q2 (append_queue o q1 p) = append_queue o (q1 ++ q2)%list p.
Proof.
  destruct q1 as [|x1 q1]; [reflexivity|]. destruct q2 as [|x2 q2]; [rewrite app_nil_r; reflexivity|].
  cbn [append_queue app]. rewrite lookup_insert_eq, insert_insert_eq, <- app_assoc. reflexivity.
Qed.

Lemma update_db_grows (o v c ctx : string) (s : state) (k : string) :
  db s !! k <> None -> db (snd (update_order_status o v c ctx s)) !! k <> None.
Proof.
  intros H. rewrite update_unfold.
  destruct (negb _); [exact H|].
  rewrite retry_read.
  destruct (retry_ok (gw_faults s)); cbv beta iota; [|exact H].
  destruct (db s !! o) as [cur|].
  2:{ unfold _add_to_pending_updates; cbv [bind ret time_time get_state modify]. exact H. }
  cbv zeta.
  destruct (String.eqb _ v); [exact H|].
  destruct (cfg_strict_validation && _); [exact H|].
  rewrite retry_write.
  destruct (retry_ok _); cbv beta iota; [|exact H].
  unfold _record_status_history; cbv [bind ret time_time get_state modify].
  destruct (negb _); cbn [snd db set_history set_db];
    (destruct (String.eqb_spec k o) as [->|Hne];
     [rewrite lookup_insert_eq; discriminate|rewrite lookup_insert_ne by congruence; exact H]).
Qed.

Lemma update_stored_keeps_pending (o v c ctx : string) (s : state) :
  db s !! o <> None -> pending_updates (snd (update_order_status o v c ctx s)) = pending_updates s.
Proof.
  intros H. rewrite update_unfold.
  destruct (negb _); [reflexivity|].
  rewrite retry_read.
  destruct (retry_ok (gw_faults s)); cbv beta iota; [|reflexivity].
  destruct (db s !! o) as [cur|]; [|congruence].
  cbv zeta.
  destruct (String.eqb _ v); [reflexivity|].
  destruct (cfg_strict_validation && _); [reflexivity|].
  rewrite retry_write.
  destruct (retry_ok _); cbv beta iota; [|reflexivity].
  unfold _record_status_history; cbv [bind ret time_time get_state modify].
  destruct (negb _); reflexivity.
Qed.

Lemma update_missing (o v c ctx : string) (s : state) :
  db s !! o = None -> gw_faults s = [] ->
  update_order_status o v c ctx s =
  (false, if str_in status_mapping v
          then snd (_add_to_pending_updates o v c ctx (after_retries (EvRead o) s)) else s).
Proof.
  intros Hdb Hf. rewrite update_unfold.
  destruct (str_in status_mapping v); cbn [negb]; [|reflexivity].
  rewrite retry_read, Hf. cbn [retry_ok]. cbv beta iota. rewrite Hdb.
  unfold _add_to_pending_updates; cbv [bind ret time_time get_state modify]. reflexivity.
Qed.

Lemma replay_db_grows (o : string) (us : list update_info) (n : nat) (s : state) (k : string) :
  db s !! k <> None -> db (snd (replay_updates o us n s)) !! k <> None.
Proof.
  revert n s. induction us as [|u us IH]; intros n s H; [exact H|].
  cbn [replay_updates]. cbv [bind].
  pose proof (update_db_grows o (u_new_status u) (u_cookie_id u) ("待处理队列: " ++ u_context u) s k H) as H1.
  destruct (update_order_status _ _ _ _ s) as [b s1]. apply IH, H1.
Qed.

Lemma replay_stored (o : string) (us : list update_info) (n : nat) (s : state) :
  db s !! o <> None -> pending_updates (snd (replay_updates o us n s)) = pending_updates s.
Proof.
  revert n s. induction us as [|u us IH]; intros n s H; [reflexivity|].
  cbn [replay_updates]. cbv [bind].
  pose proof (update_db_grows o (u_new_status u) (u_cookie_id u) ("待处理队列: " ++ u_context u) s o H) as H1.
  pose proof (update_stored_keeps_pending o (u_new_status u) (u_cookie_id u) ("待处理队列: " ++ u_context u) s H) as H2.
  destruct (update_order_status _ _ _ _ s) as [b s1]. cbn [snd] in H1, H2.
  rewrite IH by exact H1. exact H2.
Qed.

Lemma replay_missing (o : string) (us : list update_info) (n : nat) (s : state) :
  db s !! o = None -> gw_faults s = [] ->
  let '(r, s') := replay_updates o us n s in
  r = n /\ db s' = db s /\ gw_faults s' = [] /\ clock s' = clock s /\
  pending_updates s' = append_queue o (requeue (clock s) us) (pending_updates s).
Proof.
  revert n s. induction us as [|u us IH]; intros n s Hdb Hf.
  - cbn. repeat split; auto.
  - cbn [replay_updates]. cbv [bind]. rewrite update_missing by assumption.
    set (s1 := if str_in status_mapping (u_new_status u)
               then snd (_add_to_pending_updates o (u_new_status u) (u_cookie_id u)
                           ("待处理队列: " ++ u_context u) (after_retries (EvRead o) s))
               else s).
    assert (Hs1 : db s1 = db s /\ gw_faults s1 = [] /\ clock s1 = clock s /\
                  pending_updates s1 =
                  append_queue o (if str_in status_mapping (u_new_status u)
                                  then [{| u_new_status := u_new_status u; u_cookie_id := u_cookie_id u;
                                           u_context := "待处理队列: " ++ u_context u;
                                           u_timestamp := clock s |}] else [])
                    (pending_updates s)).
    { unfold s1. destruct (str_in status_mapping (u_new_status u)); [|repeat split; auto].
      unfold _add_to_pending_updates, after_retries; cbv [bind ret time_time get_state modify].
      rewrite Hf. cbn. rewrite Z.add_0_r. repeat split. }
    destruct Hs1 as (Hd1 & Hf1 & Hc1 & Hp1).
    specialize (IH n s1). rewrite Hd1 in IH. specialize (IH Hdb Hf1).
    destruct (replay_updates o us n s1) as [r s'].
    destruct IH as (Hr & Hd & Hf' & Hc & Hp).
    repeat split; try congruence.
    rewrite Hp, Hp1, Hc1, append_queue_app. f_equal.
    unfold requeue. cbn [List.filter].
    destruct (str_in status_mapping (u_new_status u)); reflexivity.
Qed.

Lemma process_db_grows (o : string) (s : state) (k : string) :
  db s !! k <> None -> db (snd (process_pending_updates o s)) !! k <> None.
Proof.
  intros H. unfold process_pending_updates; cbv [bind ret get_state modify].
  destruct (pending_updates s !! o) as [us|]; [|exact H].
  pose proof (replay_db_grows o us 0 (set_pending_updates (delete o) s) k H) as H1.
  destruct (replay_updates _ _ _ _) as [n s1]. exact H1.
Qed.

Lemma process_stored (o : string) (s : state) :
  db s !! o <> None ->
  pending_updates (snd (process_pending_updates o s)) = delete o (pending_updates s).
Proof.
  intros H. unfold process_pending_updates; cbv [bind ret get_state modify].
  destruct (pending_updates s !! o) as [us|] eqn:E.
  - pose proof (replay_stored o us 0 (set_pending_updates (delete o) s) H) as H1.
    destruct (replay_updates _ _ _ _) as [n s1]. exact H1.
  - cbn [snd]. symmetry. apply delete_id, E.
Qed.

(** X8: [process_pending_updates] returns [false] and changes nothing when
    the order has no queue; for an order stored in the database it removes
    the order's queue and no other. *)
Theorem process_pending_updates_queue (order_id : string) (s : state) :
  (pending_updates s !! order_id = None -> process_pending_updates order_id s = (false, s)) /\
  (db s !! order_id <> None ->
   pending_updates (snd (process_pending_updates order_id s)) = delete order_id (pending_updates s)).
Proof.
  split.
  - intros E. unfold process_pending_updates; cbv [bind ret get_state]. rewrite E. reflexivity.
  - apply process_stored.
Qed.

(** X9: for an order missing from the database (gateway not failing),
    [process_pending_updates] returns [false], stores nothing and puts back
    in the order's queue the updates with a known status, their context
    prefixed once more and their timestamp renewed; with none left the
    queue is removed. *)
Theorem process_pending_updates_missing_order (order_id : string) (s : state)
  (updates : list update_info) :
  db s !! order_id = None -> gw_faults s = [] -> pending_updates s !! order_id = Some updates ->
  let '(r, s') := process_pending_updates order_id s in
  r = false /\ db s' = db s /\
  pending_updates s' = match requeue (clock s) updates with
                       | [] => delete order_id (pending_updates s)
                       | q => <[order_id := q]> (pending_updates s)
                       end.
Proof.
  intros Hdb Hf Hq. unfold process_pending_updates; cbv [bind ret get_state modify]. rewrite Hq.
  pose proof (replay_missing order_id updates 0 (set_pending_updates (delete order_id) s) Hdb Hf) as H.
  destruct (replay_updates _ _ _ _) as [r s']. destruct H as (-> & Hd & _ & _ & Hp).
  split; [reflexivity|]. split; [exact Hd|]. rewrite Hp. cbn [pending_updates set_pending_updates clock].
  destruct (requeue (clock s) updates) as [|x q]; [reflexivity|].
  cbn [append_queue]. rewrite lookup_delete_eq, insert_delete_eq. reflexivity.
Qed.

(** X10: [on_order_details_fetched] leaves the handler in the state
    [process_pending_updates] leaves it in, for the same order id. *)
Theorem on_order_details_fetched_as_process (order_id : string) (s : state) :
  snd (on_order_details_fetched order_id s) = snd (process_pending_updates order_id s).
Proof.
  unfold on_order_details_fetched, process_pending_updates, _process_updates_outside_lock.
  cbv [cfg_use_pending_queue negb bind ret get_state modify].
  destruct (pending_updates s !! order_id); [|reflexivity].
  destruct (replay_updates _ _ _ _); reflexivity.
Qed.

Lemma process_orders_stored (ids : list string) (n : nat) (s : state) :
  (forall o, In o ids -> db s !! o <> None) ->
  forall k, pending_updates (snd (process_orders ids n s)) !! k =
            if str_in ids k then None else pending_updates s !! k.
Proof.
  revert n s. induction ids as [|o ids IH]; intros n s H k; [reflexivity|].
  cbn [process_orders]. cbv [bind].
  assert (Ho : db s !! o <> None) by (apply H; left; reflexivity).
  pose proof (process_stored o s Ho) as Hp.
  assert (Hg : forall o', In o' ids -> db (snd (process_pending_updates o s)) !! o' <> None).
  { intros o' Hin. apply process_db_grows, H. right. exact Hin. }
  destruct (process_pending_updates o s) as [b s1]. cbn [snd] in Hp, Hg.
  rewrite (IH _ s1 Hg k), Hp. unfold str_in; cbn [existsb].
  destruct (String.eqb_spec k o) as [->|Hne]; cbn [orb].
  - rewrite lookup_delete_eq. destruct (existsb _ ids); reflexivity.
  - rewrite lookup_delete_ne by congruence. reflexivity.
Qed.

(** X11: [process_all_pending_updates], over a key snapshot covering the
    queue, empties the pending queue when every snapshot order is stored in
    the database. *)
Theorem process_all_drains_stored_orders (order_ids : list string) (s : state) :
  (forall o, pending_updates s !! o <> None -> In o order_ids) ->
  (forall o, In o order_ids -> db s !! o <> None) ->
  pending_updates (snd (process_all_pending_updates order_ids s)) = ∅.
Proof.
  intros Hkeys Hdb. unfold process_all_pending_updates; cbv [bind ret get_state].
  destruct (decide (pending_updates s = ∅)) as [He|Hne]; [exact He|].
  apply map_eq. intros k. rewrite lookup_empty, (process_orders_stored order_ids 0 s Hdb k).
  destruct (str_in order_ids k) eqn:E; [reflexivity|].
  destruct (pending_updates s !! k) eqn:Ek; [|reflexivity].
  exfalso. assert (Hin : In k order_ids) by (apply Hkeys; congruence).
  apply str_in_spec in Hin. congruence.
Qed.

(** ** Sweeping the queues *)

Lemma filter_is_list_filter {A} (p : A -> bool) (l : list A) :
  filter (fun x => p x) l = List.filter p l.
Proof.
  induction l as [|x l IH]; [reflexivity|]. rewrite filter_cons. cbn [List.filter].
  destruct (p x) eqn:E.
  - rewrite decide_True by exact I. f_equal. exact IH.
  - rewrite decide_False by (intros H; exact H). exact IH.
Qed.

Lemma clear_expired_swept {A} (timestamp : A -> Z) (now max_age : Z) (d : gmap string (list A)) :
  swept timestamp now max_age d (clear_expired timestamp now max_age d).
Proof.
  intros k. unfold clear_expired. rewrite lookup_omap.
  destruct (d !! k) as [l|]; [|reflexivity]. cbn [mbind option_bind].
  rewrite (filter_is_list_filter (fun e => Z.ltb (now - timestamp e) max_age)). reflexivity.
Qed.

(** X12: [clear_old_pending_updates] keeps, in each of its three queues,
    exactly the entries younger than the max age (24 hours by default),
    in order and with their repetitions, under their key, and deletes the
    keys left empty. *)
Theorem clear_old_pending_updates_sweeps (max_age_hours : option Z) (s : state) :
  let s' := snd (clear_old_pending_updates max_age_hours s) in
  let max_age := (match max_age_hours with Some h => h | None => cfg_max_pending_age_hours end)
                 * 3600 * 1000 in
  swept u_timestamp (clock s) max_age (pending_updates s) (pending_updates s') /\
  swept pm_timestamp (clock s) max_age (_pending_system_messages s) (_pending_system_messages s') /\
  swept pm_timestamp (clock s) max_age (_pending_red_reminder_messages s)
    (_pending_red_reminder_messages s').
Proof.
  unfold clear_old_pending_updates; cbv [cfg_use_pending_queue negb bind ret time_time modify].
  cbn [snd pending_updates _pending_system_messages _pending_red_reminder_messages
       set_pending_updates set_pending_sys set_pending_red].
  split; [|split]; apply clear_expired_swept.
Qed.

Lemma filter_filter_same {A} (p : A -> bool) (l : list A) :
  filter (fun x => p x) (filter (fun x => p x) l) = filter (fun x => p x) l.
Proof.
  induction l as [|x l IH]; [reflexivity|].
  rewrite filter_cons. destruct (decide (p x)) as [Hp|Hp].
  - rewrite filter_cons, decide_True by exact Hp. f_equal. exact IH.
  - exact IH.
Qed.

Lemma clear_expired_idem {A} (timestamp : A -> Z) (now max_age : Z) (d : gmap string (list A)) :
  clear_expired timestamp now max_age (clear_expired timestamp now max_age d)
  = clear_expired timestamp now max_age d.
Proof.
  apply map_eq. intros k. unfold clear_expired. rewrite !lookup_omap.
  destruct (d !! k) as [l|]; cbn [mbind option_bind]; [|reflexivity].
  destruct (filter _ l) as [|x r] eqn:F; [reflexivity|].
  cbn [mbind option_bind]. rewrite <- F, filter_filter_same, F. reflexivity.
Qed.

(** X13: a second [clear_old_pending_updates] with the same argument at the
    same time changes nothing. *)
Theorem clear_old_pending_updates_idempotent (max_age_hours : option Z) (s : state) :
  let s1 := snd (clear_old_pending_updates max_age_hours s) in
  snd (clear_old_pending_updates max_age_hours s1) = s1.
Proof.
  unfold clear_old_pending_updates; cbv [cfg_use_pending_queue negb bind ret time_time modify].
  cbv [snd set_pending_updates set_pending_sys set_pending_red].
  cbn [clock pending_updates _pending_system_messages _pending_red_reminder_messages].
  rewrite !clear_expired_idem. reflexivity.
Qed.

(** ** Classification *)

Lemma in_statuses_none : in_statuses (Ok None).
Proof. intros x H. discriminate. Qed.

Lemma in_statuses_raise e : in_statuses (Raise e).
Proof. intros x H. discriminate. Qed.

Lemma in_statuses_lit x : In x status_mapping -> in_statuses (Ok (Some x)).
Proof. intros Hx y H. injection H as <-. exact Hx. Qed.

Lemma in_statuses_bind {A} (r : PyResult A) (k : A -> PyResult (option string)) :
  (forall a, in_statuses (k a)) -> in_statuses (py_bind r k).
Proof. intros Hk. destruct r; [apply Hk|apply in_statuses_raise]. Qed.

Lemma in_statuses_first (r k : PyResult (option string)) :
  in_statuses r -> in_statuses k ->
  in_statuses (py_bind r (fun o => match o with Some st => Ok (Some st) | None => k end)).
Proof.
  intros Hr Hk. destruct r as [[st|]|e]; cbn [py_bind]; [|exact Hk|apply in_statuses_raise].
  apply in_statuses_lit, Hr. reflexivity.
Qed.

Ltac in_statuses_tac :=
  repeat first
    [ assumption
    | apply in_statuses_none
    | apply in_statuses_raise
    | apply in_statuses_lit; cbn; tauto
    | apply in_statuses_first
    | apply in_statuses_bind; intro
    | match goal with |- in_statuses (if ?b then _ else _) => destruct b end
    | match goal with |- in_statuses (match ?o with Some _ => _ | None => _ end) => destruct o end ].

Section Classification.
Context {B : PyBuiltins}.

Lemma infer_from_task_name_in_statuses message :
  in_statuses (_infer_status_from_task_name message).
Proof. unfold _infer_status_from_task_name. in_statuses_tac. Qed.

Lemma infer_from_message_in_statuses send_message message :
  in_statuses (_infer_status_from_message send_message message).
Proof.
  unfold _infer_status_from_message.
  pose proof (infer_from_task_name_in_statuses message). in_statuses_tac.
Qed.

Lemma check_refund_extra_in_statuses extra : in_statuses (check_refund_extra extra).
Proof.
  induction extra as [|v extra IH]; cbn [check_refund_extra]; in_statuses_tac.
Qed.

Lemma check_refund_body_in_statuses message : in_statuses (check_refund_body message).
Proof.
  unfold check_refund_body, check_refund_tip, check_refund_card.
  in_statuses_tac; apply check_refund_extra_in_statuses.
Qed.

(** X14: the classification of [handle_system_message] only yields
    statuses of [status_mapping]. *)
Theorem classify_system_message_known (message : value) (send_message st : string) :
  classify_system_message message send_message = Ok (Some st) -> In st status_mapping.
Proof.
  unfold classify_system_message, _check_refund_message, absorb.
  pose proof (check_refund_body_in_statuses message) as Hb.
  destruct (check_refund_body message) as [[r|]|e] eqn:E.
  - intros H. injection H as <-. apply Hb. reflexivity.
  - destruct (assoc send_message message_status_mapping) as [st'|] eqn:Em.
    + intros H. injection H as <-. cbn in Em.
      repeat (destruct (String.eqb send_message _) in Em; [injection Em as <-; cbn; tauto|]).
      discriminate.
    + apply infer_from_message_in_statuses.
  - destruct (assoc send_message message_status_mapping) as [st'|] eqn:Em.
    + intros H. injection H as <-. cbn in Em.
      repeat (destruct (String.eqb send_message _) in Em; [injection Em as <-; cbn; tauto|]).
      discriminate.
    + apply infer_from_message_in_statuses.
Qed.

End Classification.

Lemma classify_system_message_known_witness :
  @classify_system_message eval_builtins chat_message "你已发货" = Ok (Some "shipped") /\
  In "shipped" status_mapping.
Proof.
  assert (H : @classify_system_message eval_builtins chat_message "你已发货" = Ok (Some "shipped"))
    by (vm_compute; reflexivity).
  split; [exact H|]. exact (@classify_system_message_known eval_builtins _ _ _ H).
Defined.

(** ** Red reminders *)



Section RedReminders.
Context {B : PyBuiltins}.



End RedReminders.

Lemma process_pending_updates_queue_witness :
  process_pending_updates "o2" queued_update_state = (false, queued_update_state) /\
  pending_updates (snd (process_pending_updates "o1" queued_update_state)) =
    delete "o1" (pending_updates queued_update_state).
Proof.
  split.
  - apply (proj1 (process_pending_updates_queue "o2" queued_update_state)). vm_compute. reflexivity.
  - apply (proj2 (process_pending_updates_queue "o1" queued_update_state)). vm_compute. discriminate.
Defined.

Lemma process_pending_updates_missing_order_witness :
  let '(r, s') := process_pending_updates "o9" orphan_queue_state in
  r = false /\ db s' = db orphan_queue_state /\
  pending_updates s' =
    <["o9" := [{| u_new_status := "shipped"; u_cookie_id := "acc";
                  u_context := "待处理队列: ctx"; u_timestamp := 5000 |}]]>
      (pending_updates orphan_queue_state).
Proof.
  apply (process_pending_updates_missing_order "o9" orphan_queue_state [upd "shipped"; upd "bogus"]);
    vm_compute; reflexivity.
Defined.

Lemma process_all_drains_stored_orders_witness :
  pending_updates (snd (process_all_pending_updates ["o1"] queued_update_state)) = ∅.
Proof.
  apply process_all_drains_stored_orders.
  - intros o Ho. destruct (String.eq_dec o "o1") as [->|Hne]; [left; reflexivity|].
    exfalso. apply Ho. cbn [pending_updates queued_update_state set_pending_updates shipped_order_state mk_state].
    apply lookup_singleton_ne. congruence.
  - intros o [<-|[]]. vm_compute. discriminate.
Defined.


(** ** Chat identifiers *)

Lemma set_update_nodup (acc xs : list string) :
  NoDup acc -> NoDup (set_update acc xs).
Proof.
  unfold set_update. revert acc. induction xs as [|x xs IH]; intros acc H; cbn [fold_left]; [exact H|].
  apply IH. destruct (str_in acc x) eqn:E; [exact H|].
  apply NoDup_app. split; [exact H|]. split; [|apply NoDup_singleton].
  intros y Hy Hx. apply list_elem_of_singleton in Hx. subst y.
  apply list_elem_of_In, str_in_spec in Hy. congruence.
Qed.

Lemma fold_nodup {B} (step : list string -> B -> list string) (ks : list B) (acc : list string) :
  (forall a x, NoDup a -> NoDup (step a x)) -> NoDup acc -> NoDup (fold_left step ks acc).
Proof.
  intros Hs. revert acc. induction ks as [|k ks IH]; intros acc H; cbn [fold_left]; auto.
Qed.

(** X16: [_extract_chat_identifiers] returns distinct, non-empty
    identifiers, whatever the payload. *)
Theorem extract_chat_identifiers_distinct (message : value) :
  NoDup (_extract_chat_identifiers message) /\
  Forall (fun i => i <> "") (_extract_chat_identifiers message).
Proof.
  unfold _extract_chat_identifiers.
  destruct (is_dict message); cbn [negb]; [|split; constructor].
  match goal with |- context [filter ?P ?ids] => assert (Hn : NoDup ids) end.
  { repeat first [ assumption | apply set_update_nodup | apply fold_nodup | progress case_match
                 | constructor | intros ]. }
  split.
  - apply NoDup_filter, Hn.
  - apply Forall_forall. intros x Hx. apply list_elem_of_filter in Hx as [Hp _].
    destruct (String.eqb_spec x ""); [contradiction|assumption].
Qed.
